(** * A shallow embedding of the BSE announcements fetcher (scrapper_bse.py, app.py)

    Python values decoded from JSON are modelled by [json]; a Python [dict]
    built by [json.loads] is an association list with unique keys, looked up
    from the front.  Strings are Rocq strings whose characters are read as
    Latin-1 code points.  JSON numbers are modelled as integers. *)

From Stdlib Require Import String Ascii List ZArith Bool Lia.
From Stdlib Require Import Numbers.DecimalString.
From Stdlib Require Numbers.DecimalZ.
Import ListNotations.
Set Warnings "-register-all,-abstract-large-number".
Open Scope string_scope.
Open Scope nat_scope.

(** ** Python values *)

Inductive json : Type :=
| JNull
| JBool (b : bool)
| JNum (z : Z)
| JStr (s : string)
| JArr (l : list json)
| JObj (kvs : list (string * json)).

Definition dict := list (string * json).

(** The exceptions the code raises or catches.  The last three derive from
    [BaseException] only, not from [Exception]. *)
Inductive pyexc : Type :=
| ValueError (msg : string)
| TypeError (msg : string)
| RuntimeError (msg : string)
| OtherException (name msg : string)
| KeyboardInterrupt
| SystemExit
| GeneratorExit.

(** [isinstance(e, Exception)] *)
Definition is_Exception (e : pyexc) : bool :=
  match e with
  | KeyboardInterrupt | SystemExit | GeneratorExit => false
  | _ => true
  end.

(** Fallible computations: a value, or a raised exception. *)
Inductive result (A : Type) : Type :=
| Ok (a : A)
| Err (e : pyexc).
Arguments Ok {A} a.
Arguments Err {A} e.

Definition bind {A B} (m : result A) (f : A -> result B) : result B :=
  match m with Ok a => f a | Err e => Err e end.

Notation "x <- m ;; k" := (bind m (fun x => k))
  (at level 61, m at next level, right associativity).

Fixpoint mapM {A B} (f : A -> result B) (l : list A) : result (list B) :=
  match l with
  | [] => Ok []
  | x :: xs => y <- f x ;; ys <- mapM f xs ;; Ok (y :: ys)
  end.

(** [d.get(k)] on a dict; [None] when the key is absent. *)
Fixpoint dict_get (d : dict) (k : string) : option json :=
  match d with
  | [] => None
  | (k', v) :: d' => if String.eqb k k' then Some v else dict_get d' k
  end.

(** [bool(v)]: Python truthiness. *)
Definition truthy (v : json) : bool :=
  match v with
  | JNull => false
  | JBool b => b
  | JNum z => negb (Z.eqb z 0)
  | JStr s => negb (String.eqb s "")
  | JArr l => match l with [] => false | _ => true end
  | JObj kvs => match kvs with [] => false | _ => true end
  end.

(** ** Characters and Python string methods *)

Definition code (c : ascii) : nat := nat_of_ascii c.

(** [str.isspace] on a Latin-1 character. *)
Definition is_space (c : ascii) : bool :=
  let n := code c in
  ((9 <=? n) && (n <=? 13)) || ((28 <=? n) && (n <=? 32))
  || (n =? 133) || (n =? 160).

Fixpoint lstrip (s : string) : string :=
  match s with
  | EmptyString => EmptyString
  | String c s' => if is_space c then lstrip s' else s
  end.

Fixpoint rstrip (s : string) : string :=
  match s with
  | EmptyString => EmptyString
  | String c s' =>
      match rstrip s' with
      | EmptyString => if is_space c then EmptyString else String c EmptyString
      | r => String c r
      end
  end.

(** [s.strip()] *)
Definition strip (s : string) : string := rstrip (lstrip s).

(** [str.lower] on a Latin-1 character. *)
Definition lower_char (c : ascii) : ascii :=
  let n := code c in
  if ((65 <=? n) && (n <=? 90)) || ((192 <=? n) && (n <=? 222) && negb (n =? 215))
  then ascii_of_nat (n + 32) else c.

Fixpoint lower (s : string) : string :=
  match s with
  | EmptyString => EmptyString
  | String c s' => String (lower_char c) (lower s')
  end.

(** [str(n)] for an integer. *)
Definition str_of_Z (z : Z) : string := NilEmpty.string_of_int (Z.to_int z).

Definition hex_digit (n : nat) : ascii :=
  if n <? 10 then ascii_of_nat (48 + n) else ascii_of_nat (87 + n).

Definition is_printable (c : ascii) : bool :=
  let n := code c in
  negb ((n <? 32) || ((127 <=? n) && (n <=? 160)) || (n =? 173)).

(** [repr(s)] for a string: single quotes unless the text holds a single
    quote and no double quote. *)
Fixpoint str_existsb (f : ascii -> bool) (s : string) : bool :=
  match s with
  | EmptyString => false
  | String c s' => f c || str_existsb f s'
  end.

Definition squote : ascii := ascii_of_nat 39.
Definition dquote : ascii := ascii_of_nat 34.

Definition repr_string (s : string) : string :=
  let q := if str_existsb (fun c => Ascii.eqb c squote) s
              && negb (str_existsb (fun c => Ascii.eqb c dquote) s)
           then dquote else squote in
  let fix esc (s : string) : string :=
    match s with
    | EmptyString => EmptyString
    | String c s' =>
        let rest := esc s' in
        if Ascii.eqb c "\"%char then "\\" ++ rest
        else if Ascii.eqb c q then String "\"%char (String c rest)
        else if Ascii.eqb c (ascii_of_nat 9) then "\t" ++ rest
        else if Ascii.eqb c (ascii_of_nat 10) then "\n" ++ rest
        else if Ascii.eqb c (ascii_of_nat 13) then "\r" ++ rest
        else if is_printable c then String c rest
        else "\x" ++ String (hex_digit (code c / 16))
                        (String (hex_digit (code c mod 16)) rest)
    end in
  String q (esc s ++ String q EmptyString).

Fixpoint join (sep : string) (l : list string) : string :=
  match l with
  | [] => ""
  | [x] => x
  | x :: xs => x ++ sep ++ join sep xs
  end.

(** [repr(v)] for a decoded JSON value. *)
Fixpoint py_repr (v : json) : string :=
  match v with
  | JNull => "None"
  | JBool b => if b then "True" else "False"
  | JNum z => str_of_Z z
  | JStr s => repr_string s
  | JArr l => "[" ++ join ", " (map py_repr l) ++ "]"
  | JObj kvs =>
      "{" ++ join ", " (map (fun '(k, x) => repr_string k ++ ": " ++ py_repr x) kvs)
      ++ "}"
  end.

(** [str(v)]: as [repr] except that a string is itself. *)
Definition py_str (v : json) : string :=
  match v with
  | JStr s => s
  | _ => py_repr v
  end.

(** ** Row helpers of scrapper_bse.py *)

(** [k in s] for two strings: substring test. *)
Fixpoint substring_in (k s : string) : bool :=
  String.prefix k s ||
  match s with
  | EmptyString => false
  | String _ s' => substring_in k s'
  end.

Definition type_name (v : json) : string :=
  match v with
  | JNull => "NoneType" | JBool _ => "bool" | JNum _ => "int"
  | JStr _ => "str" | JArr _ => "list" | JObj _ => "dict"
  end.

(** [k in d] for a string key [k] and any decoded value [d]. *)
Definition py_contains (d : json) (k : string) : result bool :=
  match d with
  | JObj kvs => Ok (match dict_get kvs k with Some _ => true | None => false end)
  | JStr s => Ok (substring_in k s)
  | JArr l => Ok (existsb (fun v => match v with JStr s => String.eqb s k | _ => false end) l)
  | _ => Err (TypeError ("argument of type '" ++ type_name d ++ "' is not iterable"))
  end.

(** [d[k]] for a string key [k]. *)
Definition py_getitem (d : json) (k : string) : result json :=
  match d with
  | JObj kvs =>
      match dict_get kvs k with
      | Some v => Ok v
      | None => Err (OtherException "KeyError" (repr_string k))
      end
  | JStr _ => Err (TypeError "string indices must be integers, not 'str'")
  | JArr _ => Err (TypeError "list indices must be integers or slices, not str")
  | _ => Err (TypeError ("'" ++ type_name d ++ "' object is not subscriptable"))
  end.

(** [v in (None, "")] *)
Definition none_or_empty (v : json) : bool :=
  match v with
  | JNull => true
  | JStr s => String.eqb s ""
  | _ => false
  end.

(** [_safe_get(d, *keys, default=default)] *)
Fixpoint _safe_get (d : json) (keys : list string) (default : json) : result json :=
  match keys with
  | [] => Ok default
  | k :: ks =>
      b <- py_contains d k ;;
      if b then
        v <- py_getitem d k ;;
        if none_or_empty v then _safe_get d ks default else Ok v
      else _safe_get d ks default
  end.

Definition ATTACH_HIS : string :=
  "https://www.bseindia.com/xml-data/corpfiling/AttachHis/".
Definition ATTACH_LIVE : string :=
  "https://www.bseindia.com/xml-data/corpfiling/AttachLive/".

(** [_make_pdf_url(row)]; Python's [None] result is [JNull]. *)
Definition _make_pdf_url (row : json) : result json :=
  att <- _safe_get row ["ATTACHMENTNAME"; "ATTACHMENT"; "FILE"] JNull ;;
  if negb (truthy att) then Ok JNull
  else
    let by_flag :=
      pdfflag <- _safe_get row ["PDFFLAG"; "pdfflag"] (JNum 0) ;;
      if String.eqb (py_str pdfflag) "1"
      then Ok (JStr (ATTACH_HIS ++ py_str att))
      else Ok (JStr (ATTACH_LIVE ++ py_str att)) in
    match att with
    | JStr s => if String.prefix "http" (lower s) then Ok att else by_flag
    | _ => by_flag
    end.

(** [_make_detail_url(row)] *)
Definition _make_detail_url (row : json) : result json :=
  newsid <- _safe_get row ["NEWSID"; "newsid"] JNull ;;
  sc <- _safe_get row ["SCRIP_CD"; "Scripcode"; "scripcode"] (JStr "") ;;
  let scrip := strip (py_str sc) in
  if truthy newsid && negb (String.eqb scrip "")
  then Ok (JStr ("https://m.bseindia.com/MAnnDet.aspx?Form=STR&newsid="
                 ++ py_str newsid ++ "&scrpcd=" ++ scrip))
  else Ok JNull.

(** [normalize_row(r)]: the dict literal's values are evaluated in order. *)
Definition normalize_row (r : json) : result dict :=
  dt <- _safe_get r ["DT_TM"; "DtTm"; "NEWS_DT"] JNull ;;
  sc <- _safe_get r ["SCRIP_CD"; "Scripcode"; "scripcode"] JNull ;;
  sn <- _safe_get r ["S_LONGNAME"; "SLONGNAME"; "SCRIPNAME"; "Scripname"] JNull ;;
  hl <- _safe_get r ["NEWSSUB"; "HEADLINE"; "NEWS_SUB"] JNull ;;
  ca <- _safe_get r ["CATEGORYNAME"; "CATEGORY"] JNull ;;
  su <- _safe_get r ["SUBCATEGORYNAME"; "SUBCAT"] JNull ;;
  ni <- _safe_get r ["NEWSID"; "newsid"] JNull ;;
  pu <- _make_pdf_url r ;;
  du <- _make_detail_url r ;;
  Ok [("datetime", dt); ("scrip_code", sc); ("scrip_name", sn);
      ("headline", hl); ("category", ca); ("subcategory", su);
      ("news_id", ni); ("pdf_url", pu); ("detail_url", du)].

(** The envelope keys tried by [_extract_rows], in order. *)
Definition ENVELOPE_KEYS : list string := ["Table"; "table"; "data"; "Data"].

Fixpoint first_list_value (kvs : dict) (keys : list string) : option (list json) :=
  match keys with
  | [] => None
  | k :: ks =>
      match dict_get kvs k with
      | Some (JArr l) => Some l
      | _ => first_list_value kvs ks
      end
  end.

(** [_extract_rows(payload)] *)
Definition _extract_rows (payload : json) : list json :=
  match payload with
  | JObj kvs =>
      match first_list_value kvs ENVELOPE_KEYS with
      | Some l => l
      | None =>
          match dict_get kvs "d" with
          | Some (JObj d) =>
              match dict_get d "Table" with
              | Some (JArr l) => l
              | _ => []
              end
          | _ => []
          end
      end
  | _ => []
  end.

(** ** De-duplication by news_id (app.py [get_bse], scrapper_bse.py CLI) *)

(** The hashable JSON scalars as a Python set sees them: [True == 1] and
    [False == 0] with equal hashes, so booleans are their integers. *)
Inductive hkey : Type :=
| KNull
| KNum (z : Z)
| KStr (s : string).

Definition hkey_eqb (a b : hkey) : bool :=
  match a, b with
  | KNull, KNull => true
  | KNum x, KNum y => Z.eqb x y
  | KStr x, KStr y => String.eqb x y
  | _, _ => false
  end.

(** [hash(v)]: lists and dicts are unhashable. *)
Definition hash_key (v : json) : result hkey :=
  match v with
  | JNull => Ok KNull
  | JBool b => Ok (KNum (if b then 1 else 0)%Z)
  | JNum z => Ok (KNum z)
  | JStr s => Ok (KStr s)
  | JArr _ => Err (TypeError "unhashable type: 'list'")
  | JObj _ => Err (TypeError "unhashable type: 'dict'")
  end.

(** [r.get("news_id")] *)
Definition get_news_id (r : dict) : json :=
  match dict_get r "news_id" with Some v => v | None => JNull end.

(** app.py:
<<
    seen, dedup = set(), []
    for r in rows:
        nid = r.get("news_id")
        if nid and nid not in seen:
            seen.add(nid); dedup.append(r)
>> *)
Fixpoint dedup_app_loop (rows : list dict) (seen : list hkey) (acc : list dict)
  : result (list dict) :=
  match rows with
  | [] => Ok acc
  | r :: rs =>
      let nid := get_news_id r in
      if truthy nid then
        h <- hash_key nid ;;
        if existsb (hkey_eqb h) seen then dedup_app_loop rs seen acc
        else dedup_app_loop rs (h :: seen) (acc ++ [r])
      else dedup_app_loop rs seen acc
  end.

Definition dedup_app (rows : list dict) : result (list dict) :=
  dedup_app_loop rows [] [].

(** scrapper_bse.py [__main__]:
<<
    for r in data:
        nid = r.get("news_id")
        if not nid or nid in seen:
            continue
        seen.add(nid)
        dedup.append(r)
>> *)
Fixpoint dedup_cli_loop (rows : list dict) (seen : list hkey) (acc : list dict)
  : result (list dict) :=
  match rows with
  | [] => Ok acc
  | r :: rs =>
      let nid := get_news_id r in
      if negb (truthy nid) then dedup_cli_loop rs seen acc
      else
        h <- hash_key nid ;;
        if existsb (hkey_eqb h) seen then dedup_cli_loop rs seen acc
        else dedup_cli_loop rs (h :: seen) (acc ++ [r])
  end.

Definition dedup_cli (rows : list dict) : result (list dict) :=
  dedup_cli_loop rows [] [].

(** ** The /bse handler of app.py *)

(** The keyword arguments [get_bse] passes to [fetch_announcements]. *)
Record fetch_args : Type := {
  fa_from_date : string;
  fa_to_date : string;
  fa_segment : string;
  fa_submission_type : string;
  fa_category : string;
  fa_subcategory : string;
  fa_search : string;
  fa_max_pages : Z;
  fa_probe : bool;
  fa_verbose : bool
}.

(** The query parameters of [/bse]. *)
Record bse_query : Type := {
  q_from_date : option string;
  q_to_date : option string;
  q_segment : string;
  q_submission_type : string;
  q_category : string;
  q_subcategory : string;
  q_search : string;
  q_max_pages : Z;
  q_probe : bool
}.

(** [x or ""] for an optional string. *)
Definition or_empty (s : option string) : string :=
  match s with Some x => if String.eqb x "" then "" else x | None => "" end.

Definition call_args (q : bse_query) : fetch_args := {|
  fa_from_date := or_empty (q_from_date q);
  fa_to_date := or_empty (q_to_date q);
  fa_segment := q_segment q;
  fa_submission_type := q_submission_type q;
  fa_category := q_category q;
  fa_subcategory := q_subcategory q;
  fa_search := q_search q;
  fa_max_pages := q_max_pages q;
  fa_probe := q_probe q;
  fa_verbose := false
|}.

Definition newline : string := String (ascii_of_nat 10) EmptyString.

(** [_get_fetch()]: the lazy import either succeeds, giving the fetcher, or
    raises [import_failure]; [format_exc e] is the traceback text. *)
Definition _get_fetch (import_failure : option pyexc)
    (fetcher : fetch_args -> result (list dict)) (format_exc : pyexc -> string)
  : result (fetch_args -> result (list dict)) :=
  match import_failure with
  | None => Ok fetcher
  | Some e =>
      if is_Exception e
      then Err (RuntimeError ("ImportError:" ++ newline ++ format_exc e))
      else Err e
  end.

(** What the handler does: return a JSON body, or let an exception escape. *)
Inductive response : Type :=
| Respond (body : json)
| Raise (e : pyexc).

Definition rows_json (rows : list dict) : json := JArr (map JObj rows).

Definition count_rows_body (dd shown : list dict) : json :=
  JObj [("count", JNum (Z.of_nat (length dd))); ("rows", rows_json shown)].

Definition error_body (trace : string) : json :=
  JObj [("error", JStr "Server crash"); ("trace", JStr trace)].

(** [get_bse(...)] *)
Definition get_bse (import_failure : option pyexc)
    (fetcher : fetch_args -> result (list dict)) (format_exc : pyexc -> string)
    (q : bse_query) : response :=
  let body :=
    f <- _get_fetch import_failure fetcher format_exc ;;
    rows <- f (call_args q) ;;
    dd <- dedup_app rows ;;
    Ok (count_rows_body dd (firstn 200 dd)) in
  match body with
  | Ok j => Respond j
  | Err e => if is_Exception e then Respond (error_body (format_exc e)) else Raise e
  end.

(** The JSON document the CLI prints for the fetched [data]. *)
Definition cli_output (data : list dict) : result json :=
  dd <- dedup_cli data ;;
  Ok (count_rows_body dd (firstn 50 dd)).

(** ** [to_site_date] and the parts of [datetime.strptime] it relies on *)

(** The format directives of [DATE_FORMATS]. *)
Inductive directive : Type :=
| DY                   (* %Y *)
| Dm                   (* %m *)
| Dd                   (* %d *)
| DLit (c : ascii).    (* a literal character *)

Definition ch (a : ascii) (c : ascii) : bool := Ascii.eqb a c.
Definition rng (lo hi : ascii) (c : ascii) : bool :=
  (code lo <=? code c) && (code c <=? code hi).
Definition is_digit : ascii -> bool := rng "0" "9".

(** The regular expressions [_strptime] compiles the directives to, as
    ordered alternatives of character-class sequences:
    [%Y] is [\d\d\d\d], [%m] is [1[0-2]|0[1-9]|[1-9]] and
    [%d] is [3[01]|[12]\d|0[1-9]|[1-9]| [1-9]]. *)
Definition alts (d : directive) : list (list (ascii -> bool)) :=
  match d with
  | DY => [[is_digit; is_digit; is_digit; is_digit]]
  | Dm => [[ch "1"; rng "0" "2"]; [ch "0"; rng "1" "9"]; [rng "1" "9"]]
  | Dd => [[ch "3"; rng "0" "1"]; [rng "1" "2"; is_digit]; [ch "0"; rng "1" "9"];
           [rng "1" "9"]; [ch " "; rng "1" "9"]]
  | DLit c => [[ch c]]
  end.

(** One alternative: the consumed text and the rest. *)
Fixpoint match_seq (cls : list (ascii -> bool)) (s : string) : option (string * string) :=
  match cls with
  | [] => Some (EmptyString, s)
  | f :: fs =>
      match s with
      | EmptyString => None
      | String c s' =>
          if f c then
            match match_seq fs s' with
            | Some (t, r) => Some (String c t, r)
            | None => None
            end
          else None
      end
  end.

(** Backtracking over alternatives in order, with continuation [k]. *)
Fixpoint try_alts {A} (al : list (list (ascii -> bool))) (s : string)
    (k : string -> string -> option A) : option A :=
  match al with
  | [] => None
  | a :: al' =>
      match match_seq a s with
      | Some (t, r) =>
          match k t r with
          | Some x => Some x
          | None => try_alts al' s k
          end
      | None => try_alts al' s k
      end
  end.

Fixpoint match_dirs {A} (ds : list directive) (s : string)
    (k : list string -> string -> option A) : option A :=
  match ds with
  | [] => k [] s
  | d :: ds' => try_alts (alts d) s (fun t r => match_dirs ds' r (fun ts r' => k (t :: ts) r'))
  end.

(** [re.match]: the first successful match of the whole pattern (not
    anchored at the end): the groups and the unconsumed text. *)
Definition regex_match (fmt : list directive) (s : string) : option (list string * string) :=
  match_dirs fmt s (fun ts r => Some (ts, r)).

(** [int(group)]: a leading blank (from [ [1-9]]) is skipped. *)
Fixpoint tok_value_acc (s : string) (acc : nat) : nat :=
  match s with
  | EmptyString => acc
  | String c s' =>
      if is_digit c then tok_value_acc s' (10 * acc + (code c - 48)) else tok_value_acc s' acc
  end.
Definition tok_value (s : string) : nat := tok_value_acc s 0.

Fixpoint group_of (d : directive) (fmt : list directive) (toks : list string) : nat :=
  match fmt, toks with
  | d' :: fmt', t :: toks' =>
      match d, d' with
      | DY, DY | Dm, Dm | Dd, Dd => tok_value t
      | _, _ => group_of d fmt' toks'
      end
  | _, _ => 0
  end.

Record date : Type := mkdate { year : nat; month : nat; day : nat }.

Definition is_leap (y : nat) : bool :=
  ((y mod 4 =? 0) && negb (y mod 100 =? 0)) || (y mod 400 =? 0).

Definition days_in_month (y m : nat) : nat :=
  match m with
  | 2 => if is_leap y then 29 else 28
  | 4 | 6 | 9 | 11 => 30
  | _ => 31
  end.

(** The checks of [datetime.date(year, month, day)]. *)
Definition valid_date (d : date) : bool :=
  (1 <=? year d) && (year d <=? 9999) && (1 <=? month d) && (month d <=? 12)
  && (1 <=? day d) && (day d <=? days_in_month (year d) (month d)).

Definition fmt_text (fmt : list directive) : string :=
  fold_right (fun d acc =>
    match d with
    | DY => "%Y" ++ acc | Dm => "%m" ++ acc | Dd => "%d" ++ acc
    | DLit c => String c acc
    end) "" fmt.

(** [datetime.strptime(s, fmt)] for the formats of [DATE_FORMATS]. *)
Definition strptime (fmt : list directive) (s : string) : result date :=
  match regex_match fmt s with
  | None => Err (ValueError ("time data " ++ repr_string s ++ " does not match format "
                             ++ repr_string (fmt_text fmt)))
  | Some (toks, rest) =>
      match rest with
      | String _ _ => Err (ValueError ("unconverted data remains: " ++ rest))
      | EmptyString =>
          let d := mkdate (group_of DY fmt toks) (group_of Dm fmt toks) (group_of Dd fmt toks) in
          if valid_date d then Ok d else Err (ValueError "day is out of range for month")
      end
  end.

Definition digit (n : nat) : ascii := ascii_of_nat (48 + n).
Definition pad2 (n : nat) : string :=
  String (digit (n / 10)) (String (digit (n mod 10)) EmptyString).
(** [%Y] zero-padded to four digits (as CPython 3.13 does on every
    platform). *)
Definition pad4 (n : nat) : string :=
  String (digit (n / 1000)) (String (digit (n / 100 mod 10))
    (String (digit (n / 10 mod 10)) (String (digit (n mod 10)) EmptyString))).

(** [d.strftime(fmt)] *)
Definition strftime (fmt : list directive) (d : date) : string :=
  fold_right (fun dir acc =>
    match dir with
    | DY => pad4 (year d) ++ acc
    | Dm => pad2 (month d) ++ acc
    | Dd => pad2 (day d) ++ acc
    | DLit c => String c acc
    end) "" fmt.

Definition FMT_YMD_DASH : list directive := [DY; DLit "-"; Dm; DLit "-"; Dd].   (* %Y-%m-%d *)
Definition FMT_DMY_SLASH : list directive := [Dd; DLit "/"; Dm; DLit "/"; DY].  (* %d/%m/%Y *)
Definition FMT_DMY_DASH : list directive := [Dd; DLit "-"; Dm; DLit "-"; DY].   (* %d-%m-%Y *)
Definition FMT_YMD_SLASH : list directive := [DY; DLit "/"; Dm; DLit "/"; Dd].  (* %Y/%m/%d *)

Definition DATE_FORMATS : list (list directive) :=
  [FMT_YMD_DASH; FMT_DMY_SLASH; FMT_DMY_DASH; FMT_YMD_SLASH].

Fixpoint try_formats (fmts : list (list directive)) (s : string) : result string :=
  match fmts with
  | [] => Err (ValueError ("Invalid date: " ++ s))
  | f :: fs =>
      match strptime f s with
      | Ok d => Ok (strftime FMT_DMY_SLASH d)
      | Err _ => try_formats fs s
      end
  end.

(** [to_site_date(s)]; [today] is [dt.date.today()]. *)
Definition to_site_date (today : date) (s : option string) : result string :=
  match s with
  | None => Ok (strftime FMT_DMY_SLASH today)
  | Some x =>
      if String.eqb x "" then Ok (strftime FMT_DMY_SLASH today)
      else try_formats DATE_FORMATS (strip x)
  end.

(** ** [fetch_announcements] *)

(** Query parameters: a [Dict[str, str]] as an association list. *)
Definition sdict := list (string * string).

(** [d[k] = v] *)
Fixpoint sdict_set (d : sdict) (k v : string) : sdict :=
  match d with
  | [] => [(k, v)]
  | (k', v') :: d' => if String.eqb k k' then (k, v) :: d' else (k', v') :: sdict_set d' k v
  end.

(** [dict(base, **kw)] *)
Definition dict_update (base kw : sdict) : sdict :=
  fold_left (fun acc '(k, v) => sdict_set acc k v) kw base.

Fixpoint sdict_get (d : sdict) (k : string) : option string :=
  match d with
  | [] => None
  | (k', v) :: d' => if String.eqb k k' then Some v else sdict_get d' k
  end.

(** [s or dflt] for a string [s]. *)
Definition or_else (s dflt : string) : string := if String.eqb s "" then dflt else s.

(** [_param_variants(...)] *)
Definition _param_variants (segment subm f_ddmmyyyy t_ddmmyyyy : string) (page : Z)
    (search category subcategory : string) : list sdict :=
  let base := [("strCat", or_else category "-1");
               ("strSubCat", or_else subcategory "");
               ("strType", or_else segment "C");
               ("strFromDate", f_ddmmyyyy);
               ("strToDate", t_ddmmyyyy);
               ("strSearch", or_else search "");
               ("strScrip", "");
               ("pageno", str_of_Z page)] in
  [dict_update base [("strIsXBRL", subm)];
   dict_update base [("strAnnSubmitType", subm)];
   dict_update base [("strIsXBRL", subm); ("strPrevDate", "")]].

Definition ENDPOINTS : list string :=
  ["https://api.bseindia.com/BseIndiaAPI/api/Ann/w";
   "https://api.bseindia.com/BseIndiaAPI/api/AnnGetData/w"].

(** A call of [_try_request(sess, url, params)]: the URL and the params. *)
Definition request := (string * sdict)%type.

(** The upstream as seen through [_try_request]: given the calls made so
    far and the current call, the parsed JSON body, or [JNull] (Python
    [None]) when GET and POST both failed.  The cache-buster, the GET/POST
    fallback and the absorbed network errors are all inside this function;
    since it sees the whole history it can model any server. *)
Definition server := list request -> string -> sdict -> json.

(** Where the loops over endpoints and variants leave a page: the function
    returned ([PStop]), or the loops ran out with [all_rows] and [got_any]. *)
Inductive page_res : Type :=
| PStop (o : result (list dict))
| PCont (all_rows : list dict) (got_any : bool).

(** [for params in _param_variants(...)] for one [url]. *)
Fixpoint for_params (srv : server) (url : string) (ps : list sdict)
    (all_rows : list dict) (got_any : bool) (tr : list request)
  : page_res * list request :=
  match ps with
  | [] => (PCont all_rows got_any, tr)
  | params :: ps' =>
      let payload := srv tr url params in
      let tr' := app tr [(url, params)] in
      if negb (truthy payload) then for_params srv url ps' all_rows got_any tr'
      else
        let rows_raw := _extract_rows payload in
        match rows_raw with
        | [] => for_params srv url ps' all_rows got_any tr'
        | _ :: _ =>
            match mapM normalize_row rows_raw with
            | Err e => (PStop (Err e), tr')
            | Ok nr =>
                if length rows_raw <? 20 then (PStop (Ok (app all_rows nr)), tr')
                else for_params srv url ps' (app all_rows nr) true tr'
            end
        end
  end.

(** [for url in ENDPOINTS]; the variants are the same for every URL. *)
Fixpoint for_urls (srv : server) (urls : list string) (ps : list sdict)
    (all_rows : list dict) (got_any : bool) (tr : list request)
  : page_res * list request :=
  match urls with
  | [] => (PCont all_rows got_any, tr)
  | url :: urls' =>
      match for_params srv url ps all_rows got_any tr with
      | (PStop o, tr') => (PStop o, tr')
      | (PCont all_rows' got_any', tr') => for_urls srv urls' ps all_rows' got_any' tr'
      end
  end.

(** [while page <= max_pages: ...]; [fuel] bounds the iterations, and the
    caller gives [max_pages] of it, enough for pages [1..max_pages]. *)
Fixpoint pages (srv : server) (a : fetch_args) (f t : string) (fuel : nat)
    (page : Z) (all_rows : list dict) (tr : list request)
  : result (list dict) * list request :=
  match fuel with
  | O => (Ok all_rows, tr)
  | S fuel' =>
      if (page <=? fa_max_pages a)%Z then
        let ps := _param_variants (fa_segment a) (fa_submission_type a) f t page
                    (fa_search a) (fa_category a) (fa_subcategory a) in
        match for_urls srv ENDPOINTS ps all_rows false tr with
        | (PStop o, tr') => (o, tr')
        | (PCont all_rows' got_any, tr') =>
            if negb got_any then (Ok all_rows', tr')
            else pages srv a f t fuel' (page + 1)%Z all_rows' tr'
        end
      else (Ok all_rows, tr)
  end.

(** [fetch_announcements(...)]: the outcome, and the [_try_request] calls
    made, in order.  The session warm-up only touches the HTML page and
    static assets and is not part of the request trace. *)
Definition fetch_announcements (today : date) (srv : server) (a : fetch_args)
  : result (list dict) * list request :=
  match to_site_date today (Some (fa_from_date a)) with
  | Err e => (Err e, [])
  | Ok f =>
      match to_site_date today (Some (fa_to_date a)) with
      | Err e => (Err e, [])
      | Ok t => pages srv a f t (Z.to_nat (fa_max_pages a)) 1%Z [] []
      end
  end.

(** The [j]-th call of a trace and the response it received. *)
Definition resp_at (srv : server) (tr : list request) (j : nat) : option json :=
  match nth_error tr j with
  | Some (url, params) => Some (srv (firstn j tr) url params)
  | None => None
  end.

(** A response that yields a non-empty row list of fewer than 20 rows. *)
Definition short_page (payload : json) : bool :=
  truthy payload && (0 <? length (_extract_rows payload))
  && (length (_extract_rows payload) <? 20).

(** ** The request schedule and the rows of [fetch_announcements] *)

(** The calls [fetch_announcements] makes when no page ends the loop:
    [n] pages from [page] on, each endpoint with each variant. *)
Fixpoint schedule (a : fetch_args) (f t : string) (page : Z) (n : nat) : list request :=
  match n with
  | O => []
  | S n' =>
      app (list_prod ENDPOINTS
             (_param_variants (fa_segment a) (fa_submission_type a) f t page
                (fa_search a) (fa_category a) (fa_subcategory a)))
          (schedule a f t (page + 1)%Z n')
  end.

(** The rows gathered from the responses to the calls [rest], made after
    the calls [prev]: each truthy response with a non-empty row list adds
    its normalized rows, in call order; the first error of [normalize_row]
    is the outcome. *)
Fixpoint collect_rows (srv : server) (prev rest : list request) (acc : list dict)
  : result (list dict) :=
  match rest with
  | [] => Ok acc
  | (url, params) :: rest' =>
      let pl := srv prev url params in
      if truthy pl && (0 <? length (_extract_rows pl)) then
        nr <- mapM normalize_row (_extract_rows pl) ;;
        collect_rows srv (app prev [(url, params)]) rest' (app acc nr)
      else collect_rows srv (app prev [(url, params)]) rest' acc
  end.

(** A response holding a full page: truthy, with at least 20 rows. *)
Definition full_page_resp (pl : json) : bool :=
  truthy pl && (20 <=? length (_extract_rows pl)).

(** ** Date arithmetic of [datetime] *)

(** [date.toordinal()], CPython's [_ymd2ord]: days before the year, days
    before the month ([_DAYS_BEFORE_MONTH], whose unused slot 0 holds -1
    there and 0 here) and the day. *)
Definition days_before_year (y : nat) : nat :=
  let y' := y - 1 in y' * 365 + y' / 4 - y' / 100 + y' / 400.

Definition DAYS_BEFORE_MONTH : list nat :=
  [0; 0; 31; 59; 90; 120; 151; 181; 212; 243; 273; 304; 334].

Definition days_before_month (y m : nat) : nat :=
  nth m DAYS_BEFORE_MONTH 0 + (if (2 <? m) && is_leap y then 1 else 0).

Definition to_ordinal (d : date) : nat :=
  days_before_year (year d) + days_before_month (year d) (month d) + day d.

(** [d - timedelta(days=1)]: CPython computes [fromordinal(toordinal() - 1)]
    and raises [OverflowError] below ordinal 1; on the calendar this is the
    day before (see [prev_day_ordinal]). *)
Definition prev_day (d : date) : result date :=
  if 1 <? day d then Ok (mkdate (year d) (month d) (day d - 1))
  else if 1 <? month d then
    Ok (mkdate (year d) (month d - 1) (days_in_month (year d) (month d - 1)))
  else if 1 <? year d then Ok (mkdate (year d - 1) 12 31)
  else Err (OtherException "OverflowError" "date value out of range").

(** [d - timedelta(days=n)] *)
Fixpoint sub_days (n : nat) (d : date) : result date :=
  match n with
  | O => Ok d
  | S n' => p <- prev_day d ;; sub_days n' p
  end.

(** ** api/bse.py *)

(** The query parameters of [today_only]. *)
Record today_query : Type := {
  tq_search : string;
  tq_segment : string;
  tq_submission_type : string;
  tq_category : string;
  tq_subcategory : string;
  tq_max_pages : Z;
  tq_diag : bool
}.

(** The keyword arguments of [_call(fd_in, td_in, pages)]. *)
Definition today_call (q : today_query) (fd_in td_in : string) (pages : Z) : fetch_args := {|
  fa_from_date := fd_in;
  fa_to_date := td_in;
  fa_segment := tq_segment q;
  fa_submission_type := tq_submission_type q;
  fa_category := tq_category q;
  fa_subcategory := tq_subcategory q;
  fa_search := tq_search q;
  fa_max_pages := pages;
  fa_probe := false;
  fa_verbose := false
|}.

(** [today_only(...)]: [today] is the IST date [today_ddmmyyyy_ist()]
    renders, [fetcher] is [fetch_announcements]; nothing is caught, so an
    exception of either call escapes.  The de-duplication loop is the
    one of app.py, word for word. *)
Definition today_only (today : date) (fetcher : fetch_args -> result (list dict))
    (q : today_query) : result json :=
  let fd := strftime FMT_DMY_SLASH today in
  let td := fd in
  rows <- fetcher (today_call q fd td (tq_max_pages q)) ;;
  rows <- match rows with
          | [] =>
              d <- strptime FMT_DMY_SLASH fd ;;
              yd <- prev_day d ;;
              fetcher (today_call q (strftime FMT_DMY_SLASH yd) td (tq_max_pages q + 2))
          | _ :: _ => Ok rows
          end ;;
  out <- dedup_app rows ;;
  let resp := [("date", JStr fd); ("count", JNum (Z.of_nat (length out)));
               ("rows", JArr (map JObj (firstn 200 out)))] in
  if tq_diag q then
    Ok (JObj (app resp
      [("diag", JObj [("segment", JStr (tq_segment q));
                      ("submission_type", JStr (tq_submission_type q));
                      ("category", JStr (tq_category q));
                      ("subcategory", JStr (tq_subcategory q));
                      ("search", JStr (tq_search q));
                      ("max_pages", JNum (tq_max_pages q));
                      ("first_row", match out with r :: _ => JObj r | [] => JNull end)])]))
  else Ok (JObj resp).

(** ** The command line of scrapper_bse.py *)

(** [sys.argv.index(x)] *)
Fixpoint list_index (l : list string) (x : string) : option nat :=
  match l with
  | [] => None
  | y :: l' => if String.eqb y x then Some 0 else option_map S (list_index l' x)
  end.

(** [_arg(flag, default)] over [argv] ([sys.argv]); every call passes a
    string default. *)
Definition _arg (argv : list string) (flag default : string) : string :=
  if existsb (fun y => String.eqb y flag) argv then
    match list_index argv flag with
    | Some i => if i + 1 <? length argv then nth (i + 1) argv default else default
    | None => default
    end
  else default.

(** [_bool(flag)] *)
Definition _bool (argv : list string) (flag : string) : bool :=
  existsb (fun y => String.eqb y flag) argv.

(** The [__main__] block up to its call of [fetch_announcements]: the
    keyword arguments it passes ([max_pages] keeps its default, 30). *)
Definition cli_fetch_args (argv : list string) (today : date) : result fetch_args :=
  from_day <- sub_days 6 today ;;
  let from_default := strftime FMT_YMD_DASH from_day in
  let to_default := strftime FMT_YMD_DASH today in
  Ok {| fa_from_date := _arg argv "--from" from_default;
        fa_to_date := _arg argv "--to" to_default;
        fa_segment := _arg argv "--segment" "C";
        fa_submission_type := _arg argv "--subm" "0";
        fa_category := _arg argv "--cat" "";
        fa_subcategory := _arg argv "--subcat" "";
        fa_search := _arg argv "--search" "";
        fa_max_pages := 30;
        fa_probe := _bool argv "--probe";
        fa_verbose := _bool argv "--verbose" |}.

(** ** Definitions that follow the spec's wording, compared with the code *)

(** "the first alias whose value is present and neither None nor the empty
    string", else the default. *)
Definition first_present (kvs : dict) (aliases : list string) (dflt : json) : json :=
  match find (fun k => match dict_get kvs k with
                       | Some v => negb (none_or_empty v)
                       | None => false
                       end) aliases with
  | Some k => match dict_get kvs k with Some v => v | None => dflt end
  | None => dflt
  end.

(** The value of key [k] is a list. *)
Definition holds_list (kvs : dict) (k : string) : Prop :=
  exists l, dict_get kvs k = Some (JArr l).

(** The row extractor as the spec describes it. *)
Inductive extract_spec : json -> list json -> Prop :=
| es_key : forall kvs pre k rest l,
    ENVELOPE_KEYS = app pre (k :: rest) ->
    Forall (fun k' => ~ holds_list kvs k') pre ->
    dict_get kvs k = Some (JArr l) ->
    extract_spec (JObj kvs) l
| es_nested : forall kvs d l,
    Forall (fun k => ~ holds_list kvs k) ENVELOPE_KEYS ->
    dict_get kvs "d" = Some (JObj d) ->
    dict_get d "Table" = Some (JArr l) ->
    extract_spec (JObj kvs) l
| es_none : forall kvs,
    Forall (fun k => ~ holds_list kvs k) ENVELOPE_KEYS ->
    ~ (exists d, dict_get kvs "d" = Some (JObj d) /\ holds_list d "Table") ->
    extract_spec (JObj kvs) []
| es_not_dict : forall p,
    (forall kvs, p <> JObj kvs) ->
    extract_spec p [].

(** The normalized fields looked up through aliases, with their aliases. *)
Definition FIELD_ALIASES : list (string * list string) :=
  [("datetime", ["DT_TM"; "DtTm"; "NEWS_DT"]);
   ("scrip_code", ["SCRIP_CD"; "Scripcode"; "scripcode"]);
   ("scrip_name", ["S_LONGNAME"; "SLONGNAME"; "SCRIPNAME"; "Scripname"]);
   ("headline", ["NEWSSUB"; "HEADLINE"; "NEWS_SUB"]);
   ("category", ["CATEGORYNAME"; "CATEGORY"]);
   ("subcategory", ["SUBCATEGORYNAME"; "SUBCAT"]);
   ("news_id", ["NEWSID"; "newsid"])].

Definition NORMALIZED_KEYS : list string :=
  ["datetime"; "scrip_code"; "scrip_name"; "headline"; "category";
   "subcategory"; "news_id"; "pdf_url"; "detail_url"].

(** Two rows carry the same (hashable) news identifier. *)
Definition same_id (r1 r2 : dict) : bool :=
  match hash_key (get_news_id r1), hash_key (get_news_id r2) with
  | Ok a, Ok b => hkey_eqb a b
  | _, _ => false
  end.

(** "keep a row when its news_id is truthy and no earlier row has the same
    news_id" *)
Fixpoint first_occurrences_aux (earlier rows : list dict) : list dict :=
  match rows with
  | [] => []
  | r :: rs =>
      app (if truthy (get_news_id r) && forallb (fun r' => negb (same_id r' r)) earlier
           then [r] else [])
          (first_occurrences_aux (app earlier [r]) rs)
  end.

Definition first_occurrences (rows : list dict) : list dict :=
  first_occurrences_aux [] rows.

(** A value Python can put in a set. *)
Definition hashable (v : json) : bool :=
  match hash_key v with Ok _ => true | Err _ => false end.

(** ** Concrete inputs *)

Definition row_a1 : dict := [("news_id", JStr "a"); ("headline", JStr "first")].
Definition row_a2 : dict := [("news_id", JStr "a"); ("headline", JStr "again")].
Definition row_b : dict := [("news_id", JStr "b")].
Definition row_none : dict := [("news_id", JNull)].

(** 201 rows with the news ids 1..201. *)
Definition rows_201 : list dict :=
  map (fun i => [("news_id", JNum (Z.of_nat i))]) (seq 1 201).

Definition query0 : bse_query := {|
  q_from_date := Some "2025-01-01"; q_to_date := Some "2025-01-01";
  q_segment := "C"; q_submission_type := "0"; q_category := "";
  q_subcategory := ""; q_search := ""; q_max_pages := 3; q_probe := false
|}.

(** The query of [today_only] with its defaults, [diag] on. *)
Definition tq0 : today_query := {|
  tq_search := ""; tq_segment := "C"; tq_submission_type := "0";
  tq_category := ""; tq_subcategory := ""; tq_max_pages := 6; tq_diag := true
|}.

(** A fetcher with nothing for a one-day window and two rows otherwise. *)
Definition fetch_fallback (a : fetch_args) : result (list dict) :=
  if String.eqb (fa_from_date a) (fa_to_date a) then Ok [] else Ok [row_a1; row_b].

(** What [fetch_announcements] returns when it stops on the page [pl]
    after having accumulated [acc0]: [all_rows.extend(normalize_row(r) for
    r in rows_raw); return all_rows], or the exception of [normalize_row]. *)
Definition stop_outcome (acc0 : list dict) (pl : json) : result (list dict) :=
  nr <- mapM normalize_row (_extract_rows pl) ;; Ok (app acc0 nr).

(** The request [q] asks for page [pg]. *)
Definition req_page (q : request) (pg : Z) : Prop :=
  sdict_get (snd q) "pageno" = Some (str_of_Z pg).

(** Fetch arguments with the given [max_pages]. *)
Definition args_pages (mp : Z) : fetch_args := {|
  fa_from_date := "2025-01-01"; fa_to_date := "2025-01-07";
  fa_segment := "C"; fa_submission_type := "0"; fa_category := "";
  fa_subcategory := ""; fa_search := ""; fa_max_pages := mp;
  fa_probe := false; fa_verbose := false
|}.

Definition today0 : date := mkdate 2025 1 15.

(** A full page: 20 announcements with the ids 1..20. *)
Definition full_page : json :=
  JObj [("Table", JArr (map (fun i => JObj [("NEWSID", JNum (Z.of_nat i))]) (seq 1 20)))].

(** An upstream that answers every request with the same full page. *)
Definition srv_full : server := fun _ _ _ => full_page.

(** A short page: 3 announcements. *)
Definition short_page3 : json :=
  JObj [("Table", JArr (map (fun i => JObj [("NEWSID", JNum (Z.of_nat i))]) (seq 1 3)))].

(** An upstream whose first two calls fail, and which then answers with a
    short page. *)
Definition srv_short : server :=
  fun tr _ _ => if length tr <? 2 then JNull else short_page3.

(** The groups [re.match] yields on a date rendered by [strftime fmt]:
    one per directive, literals included. *)
Definition toks_of (fmt : list directive) (d : date) : list string :=
  map (fun dir => match dir with
                  | DY => pad4 (year d)
                  | Dm => pad2 (month d)
                  | Dd => pad2 (day d)
                  | DLit c => String c EmptyString
                  end) fmt.

Fixpoint str_forallb (p : ascii -> bool) (s : string) : bool :=
  match s with
  | EmptyString => true
  | String c s' => p c && str_forallb p s'
  end.

(** * Properties *)

(** ** Helper lemmas on the row helpers *)

Lemma safe_get_obj : forall kvs ks dflt,
  _safe_get (JObj kvs) ks dflt = Ok (first_present kvs ks dflt).
Proof.
  intros kvs ks dflt. induction ks as [|k ks IH]; [reflexivity|].
  unfold first_present in *. cbn [_safe_get py_contains bind find].
  destruct (dict_get kvs k) as [v|] eqn:E; cbn [bind py_getitem]; rewrite ?E; cbn [bind].
  - destruct (none_or_empty v); cbn [negb]; [exact IH|rewrite E; reflexivity].
  - exact IH.
Qed.

Lemma first_list_value_app : forall kvs pre k rest l,
  Forall (fun k' => ~ holds_list kvs k') pre ->
  dict_get kvs k = Some (JArr l) ->
  first_list_value kvs (app pre (k :: rest)) = Some l.
Proof.
  intros kvs pre k rest l Hpre Hk. induction Hpre as [|k' pre Hk' _ IH]; cbn.
  - rewrite Hk. reflexivity.
  - destruct (dict_get kvs k') as [v|] eqn:E; [|exact IH].
    destruct v; try exact IH. exfalso. apply Hk'. exists l0. exact E.
Qed.

Lemma first_list_value_some : forall kvs keys l,
  first_list_value kvs keys = Some l ->
  exists pre k rest, keys = app pre (k :: rest) /\
    Forall (fun k' => ~ holds_list kvs k') pre /\ dict_get kvs k = Some (JArr l).
Proof.
  intros kvs keys l. induction keys as [|k keys IH]; cbn; [discriminate|].
  destruct (dict_get kvs k) as [v|] eqn:E.
  - destruct v; try (intro H; destruct (IH H) as (pre & k' & rest & -> & Hf & Hk');
      exists (k :: pre), k', rest; split; [reflexivity|]; split; [|exact Hk'];
      constructor; [intros (l' & E'); rewrite E in E'; discriminate|exact Hf]).
    intro H; injection H as <-. exists [], k, keys. split; [reflexivity|].
    split; [constructor|exact E].
  - intro H; destruct (IH H) as (pre & k' & rest & -> & Hf & Hk').
    exists (k :: pre), k', rest. split; [reflexivity|]. split; [|exact Hk'].
    constructor; [intros (l' & E'); rewrite E in E'; discriminate|exact Hf].
Qed.

Lemma first_list_value_none : forall kvs keys,
  first_list_value kvs keys = None <-> Forall (fun k => ~ holds_list kvs k) keys.
Proof.
  intros kvs keys. induction keys as [|k keys IH]; cbn.
  - split; [constructor|reflexivity].
  - destruct (dict_get kvs k) as [v|] eqn:E.
    + destruct v; try (rewrite IH; split;
        [intro H; constructor; [intros (l' & E'); rewrite E in E'; discriminate|exact H]
        |intro H; inversion H; assumption]).
      split; [discriminate|]. intro H; inversion H as [|? ? Hn]; subst.
      exfalso; apply Hn; exists l; exact E.
    + rewrite IH. split;
        [intro H; constructor; [intros (l' & E'); rewrite E in E'; discriminate|exact H]
        |intro H; inversion H; assumption].
Qed.

(** ** C5: the row extractor *)

(** C5: [_extract_rows] returns the list under the first of "Table", "table",
    "data", "Data" holding a list, else the list at [payload["d"]["Table"]]
    when [payload["d"]] is a dict holding one, else [[]] (also for payloads
    that are not dicts): it meets [extract_spec] and nothing else.  In
    particular [{"Table": [x]}], [{"data": [x]}] and [{"d": {"Table": [x]}}]
    all give [[x]]. *)
Theorem extract_rows_envelopes :
  (forall p l, extract_spec p l <-> _extract_rows p = l) /\
  (forall x, _extract_rows (JObj [("Table", JArr [x])]) = [x] /\
             _extract_rows (JObj [("data", JArr [x])]) = [x] /\
             _extract_rows (JObj [("d", JObj [("Table", JArr [x])])]) = [x]).
Proof.
  split; [|intro x; repeat split].
  intros p l. split.
  - intro H. destruct H as [kvs pre k rest l Hk Hpre Hl
                           |kvs d l Hnone Hd Ht|kvs Hnone Hnd|p Hp].
    + cbn [_extract_rows]. rewrite Hk, (first_list_value_app kvs pre k rest l Hpre Hl).
      reflexivity.
    + cbn [_extract_rows]. apply first_list_value_none in Hnone. rewrite Hnone, Hd, Ht.
      reflexivity.
    + cbn [_extract_rows]. apply first_list_value_none in Hnone. rewrite Hnone.
      destruct (dict_get kvs "d") as [[]|]; try reflexivity.
      destruct (dict_get kvs0 "Table") as [[| | | |tl|]|] eqn:E; try reflexivity.
      exfalso. apply Hnd. exists kvs0. split; [reflexivity|]. exists tl. exact E.
    + destruct p; try reflexivity. exfalso. exact (Hp kvs eq_refl).
  - intros <-. destruct p as [| | | | |kvs];
      try (apply es_not_dict; intros kvs; discriminate).
    cbn [_extract_rows].
    destruct (first_list_value kvs ENVELOPE_KEYS) as [l|] eqn:E.
    + destruct (first_list_value_some _ _ _ E) as (pre & k & rest & Hk & Hpre & Hl).
      exact (es_key kvs pre k rest l Hk Hpre Hl).
    + apply first_list_value_none in E.
      destruct (dict_get kvs "d") as [v|] eqn:Ed;
        [|apply es_none; [exact E|intros (d & Hd & _); congruence]].
      destruct v as [| | | | |d];
        try (apply es_none; [exact E|intros (d & Hd & _); congruence]).
      destruct (dict_get d "Table") as [w|] eqn:Et.
      * destruct w; try (apply es_none; [exact E|intros (d' & Hd & l' & Ht); congruence]).
        exact (es_nested kvs d l E Ed Et).
      * apply es_none; [exact E|]. intros (d' & Hd & l' & Ht). congruence.
Qed.

(** ** C6: the PDF URL *)

(** C6 (as the code has it): for a dict row, with [att] the first usable
    attachment alias: a falsy [att] gives [None]; a string [att] whose
    lower-cased form starts with "http" is returned unchanged; otherwise the
    result is the AttachHis prefix followed by [str(att)] when the PDF flag
    stringifies to "1", and the AttachLive prefix followed by [str(att)]
    when it does not. *)
Theorem make_pdf_url_cases : forall kvs,
  let att := first_present kvs ["ATTACHMENTNAME"; "ATTACHMENT"; "FILE"] JNull in
  let flag := first_present kvs ["PDFFLAG"; "pdfflag"] (JNum 0) in
  _make_pdf_url (JObj kvs) =
    Ok (if negb (truthy att) then JNull
        else if match att with JStr s => String.prefix "http" (lower s) | _ => false end
        then att
        else if String.eqb (py_str flag) "1" then JStr (ATTACH_HIS ++ py_str att)
        else JStr (ATTACH_LIVE ++ py_str att)).
Proof.
  intros kvs att flag. unfold _make_pdf_url. rewrite !safe_get_obj. cbn [bind].
  fold att flag. clearbody att flag. destruct (negb (truthy att)); [reflexivity|].
  destruct att; repeat match goal with |- context [if ?b then _ else _] => destruct b end;
    reflexivity.
Qed.

(** C6 fails as stated: the attachment "HTTPS://www.bseindia.com/a.pdf" does
    not start with "http", and its PDF flag (absent, so 0) does not
    stringify to "1", yet the name is returned unchanged rather than after
    the AttachLive prefix. *)
Lemma make_pdf_url_uppercase_http :
  String.prefix "http" "HTTPS://www.bseindia.com/a.pdf" = false /\
  _make_pdf_url (JObj [("ATTACHMENTNAME", JStr "HTTPS://www.bseindia.com/a.pdf")])
    = Ok (JStr "HTTPS://www.bseindia.com/a.pdf") /\
  JStr "HTTPS://www.bseindia.com/a.pdf"
    <> JStr (ATTACH_LIVE ++ "HTTPS://www.bseindia.com/a.pdf").
Proof.
  split; [reflexivity|]. split; [vm_compute; reflexivity|]. discriminate.
Qed.

(** ** C9: the normalized row *)

Lemma make_detail_url_ok : forall kvs, exists u, _make_detail_url (JObj kvs) = Ok u.
Proof.
  intros kvs. unfold _make_detail_url. rewrite !safe_get_obj. cbn [bind].
  match goal with |- context [if ?b then _ else _] => destruct b end; eexists; reflexivity.
Qed.

Lemma dedup_app_loop_skip : forall r after before seen acc,
  truthy (get_news_id r) = false ->
  dedup_app_loop (app before (r :: after)) seen acc
  = dedup_app_loop (app before after) seen acc.
Proof.
  intros r after before. induction before as [|b before IH]; intros seen acc Hr; cbn.
  - rewrite Hr. reflexivity.
  - destruct (truthy (get_news_id b)); [|apply IH; exact Hr].
    destruct (hash_key (get_news_id b)) as [h|e]; cbn [bind]; [|reflexivity].
    destruct (existsb (hkey_eqb h) seen); apply IH; exact Hr.
Qed.

(** C9: for every input dict, the empty one included, [normalize_row]
    returns a dict with exactly the nine keys; each looked-up field holds
    the first alias whose value is present and neither None nor "", else
    None; and when no news identifier alias is usable (for instance
    "NEWSID" is "" and "newsid" is absent), news_id is None and
    de-duplication drops the row wherever it stands. *)
Theorem normalize_row_shape : forall kvs, exists out,
  normalize_row (JObj kvs) = Ok out /\
  map fst out = NORMALIZED_KEYS /\
  Forall (fun fa => dict_get out (fst fa) = Some (first_present kvs (snd fa) JNull))
    FIELD_ALIASES /\
  (first_present kvs ["NEWSID"; "newsid"] JNull = JNull ->
   get_news_id out = JNull /\
   forall before after,
     dedup_app (app before (out :: after)) = dedup_app (app before after)).
Proof.
  intros kvs. unfold normalize_row. rewrite !safe_get_obj. cbn [bind].
  rewrite make_pdf_url_cases. destruct (make_detail_url_ok kvs) as [u Hu].
  rewrite Hu. cbn [bind].
  eexists. split; [reflexivity|]. split; [reflexivity|]. split.
  - repeat constructor.
  - intro Hn. split; [exact Hn|]. intros before after. unfold dedup_app.
    apply dedup_app_loop_skip.
    change (truthy (first_present kvs ["NEWSID"; "newsid"] JNull) = false).
    rewrite Hn. reflexivity.
Qed.

(** ** De-duplication: helper lemmas *)

Lemma dedup_cli_loop_app_loop : forall rows seen acc,
  dedup_cli_loop rows seen acc = dedup_app_loop rows seen acc.
Proof.
  intros rows. induction rows as [|r rs IH]; intros seen acc; [reflexivity|]. cbn.
  destruct (truthy (get_news_id r)); cbn [negb]; [|apply IH].
  destruct (hash_key (get_news_id r)); cbn [bind]; [|reflexivity].
  destruct (existsb (hkey_eqb a) seen); apply IH.
Qed.

Lemma dedup_cli_app : forall rows, dedup_cli rows = dedup_app rows.
Proof. intros rows. apply dedup_cli_loop_app_loop. Qed.

Lemma hkey_eqb_spec : forall a b, hkey_eqb a b = true <-> a = b.
Proof.
  intros [|x|x] [|y|y]; cbn; try (split; congruence).
  - rewrite Z.eqb_eq. split; congruence.
  - rewrite String.eqb_eq. split; congruence.
Qed.

Lemma existsb_hkey : forall h seen, existsb (hkey_eqb h) seen = true <-> In h seen.
Proof.
  intros h seen. rewrite existsb_exists. split.
  - intros (x & Hx & E). apply hkey_eqb_spec in E. subst. exact Hx.
  - intros Hin. exists h. split; [exact Hin|]. apply hkey_eqb_spec. reflexivity.
Qed.

Definition key_truthy (h : hkey) : bool :=
  match h with
  | KNull => false
  | KNum z => negb (Z.eqb z 0)
  | KStr s => negb (String.eqb s "")
  end.

Lemma hash_truthy : forall v h, hash_key v = Ok h -> truthy v = key_truthy h.
Proof.
  intros v h H. destruct v as [|b|z|s|l|kvs]; cbn in H; try discriminate;
    injection H as <-; cbn; try reflexivity.
  destruct b; reflexivity.
Qed.

Lemma hash_key_err : forall v e, hash_key v = Err e -> exists msg, e = TypeError msg.
Proof.
  intros v e H. destruct v; cbn in H; try discriminate; injection H as <-; eexists; reflexivity.
Qed.

(** What the loop outputs: rows with truthy, pairwise different ids, none of
    them already seen. *)
Lemma dedup_loop_out : forall rows seen acc out,
  dedup_app_loop rows seen acc = Ok out ->
  exists new hs, out = app acc new /\
    Forall2 (fun r h => hash_key (get_news_id r) = Ok h) new hs /\
    NoDup hs /\ Forall (fun h => ~ In h seen) hs /\
    Forall (fun r => truthy (get_news_id r) = true) new.
Proof.
  intros rows. induction rows as [|r rs IH]; intros seen acc out H; cbn in H.
  - injection H as <-. exists [], []. rewrite app_nil_r.
    repeat split; constructor.
  - destruct (truthy (get_news_id r)) eqn:Et; [|exact (IH _ _ _ H)].
    destruct (hash_key (get_news_id r)) as [h|e] eqn:Eh; cbn [bind] in H; [|discriminate].
    destruct (existsb (hkey_eqb h) seen) eqn:Es; [exact (IH _ _ _ H)|].
    destruct (IH _ _ _ H) as (new & hs & -> & Hf & Hnd & Hns & Ht).
    exists (r :: new), (h :: hs). rewrite <- app_assoc. split; [reflexivity|].
    split; [constructor; assumption|].
    split; [constructor; [intro Hin;
            exact (proj1 (Forall_forall _ hs) Hns h Hin (or_introl eq_refl))|exact Hnd]|].
    split; [constructor|constructor; assumption].
    + intro Hin. apply existsb_hkey in Hin. congruence.
    + eapply Forall_impl; [|exact Hns]. intros h' Hh' Hin. apply Hh'. right. exact Hin.
Qed.

(** Rows with truthy, pairwise different ids, none of them seen, all pass. *)
Lemma dedup_loop_keeps : forall ys hs seen acc,
  Forall2 (fun r h => hash_key (get_news_id r) = Ok h) ys hs ->
  NoDup hs -> Forall (fun h => ~ In h seen) hs ->
  Forall (fun r => truthy (get_news_id r) = true) ys ->
  dedup_app_loop ys seen acc = Ok (app acc ys).
Proof.
  intros ys hs seen acc Hf. revert seen acc.
  induction Hf as [|y h ys hs Hyh Hf IH]; intros seen acc Hnd Hns Ht.
  - cbn. rewrite app_nil_r. reflexivity.
  - inversion Hnd as [|? ? Hh Hnd']; subst. inversion Hns as [|? ? Hhs Hns']; subst.
    inversion Ht as [|? ? Hty Ht']; subst.
    cbn. rewrite Hty, Hyh. cbn [bind].
    destruct (existsb (hkey_eqb h) seen) eqn:Es.
    + apply existsb_hkey in Es. contradiction.
    + rewrite IH; [rewrite <- app_assoc; reflexivity|exact Hnd'| |exact Ht'].
      apply Forall_forall. intros h' Hin [<-|Hin'].
      * contradiction.
      * exact (proj1 (Forall_forall _ hs) Hns' h' Hin Hin').
Qed.

Lemma forallb_not_same : forall prev r h seen,
  hash_key (get_news_id r) = Ok h -> key_truthy h = true ->
  (forall h', key_truthy h' = true ->
     (In h' seen <-> exists r', In r' prev /\ hash_key (get_news_id r') = Ok h')) ->
  forallb (fun r' => negb (same_id r' r)) prev = negb (existsb (hkey_eqb h) seen).
Proof.
  intros prev r h seen Hr Hk Hinv.
  destruct (existsb (hkey_eqb h) seen) eqn:Es; cbn [negb].
  - apply existsb_hkey, (Hinv h Hk) in Es. destruct Es as (r' & Hin & Hr').
    destruct (forallb (fun r' => negb (same_id r' r)) prev) eqn:Ef; [|reflexivity].
    rewrite forallb_forall in Ef. specialize (Ef r' Hin).
    unfold same_id in Ef. rewrite Hr', Hr in Ef.
    assert (hkey_eqb h h = true) as E by (apply hkey_eqb_spec; reflexivity).
    rewrite E in Ef. discriminate.
  - apply forallb_forall. intros r' Hin. unfold same_id. rewrite Hr.
    destruct (hash_key (get_news_id r')) as [a|e] eqn:Ea; [|reflexivity].
    destruct (hkey_eqb a h) eqn:E; [|reflexivity].
    apply hkey_eqb_spec in E. subst a.
    assert (In h seen) as Hs by (apply (Hinv h Hk); exists r'; split; assumption).
    apply existsb_hkey in Hs. congruence.
Qed.

Lemma dedup_loop_first : forall rows prev seen acc,
  (forall h, key_truthy h = true ->
     (In h seen <-> exists r', In r' prev /\ hash_key (get_news_id r') = Ok h)) ->
  (forall r, In r rows -> truthy (get_news_id r) = true -> hashable (get_news_id r) = true) ->
  dedup_app_loop rows seen acc = Ok (app acc (first_occurrences_aux prev rows)).
Proof.
  intros rows. induction rows as [|r rs IH]; intros prev seen acc Hinv Hh.
  - cbn. rewrite app_nil_r. reflexivity.
  - cbn [dedup_app_loop first_occurrences_aux].
    assert (Hh' : forall r0, In r0 rs -> truthy (get_news_id r0) = true ->
                  hashable (get_news_id r0) = true) by (intros; apply Hh; [right|]; assumption).
    destruct (truthy (get_news_id r)) eqn:Et; cbn [andb app].
    + specialize (Hh r (or_introl eq_refl) Et). unfold hashable in Hh.
      destruct (hash_key (get_news_id r)) as [h|e] eqn:Er; [|discriminate]. cbn [bind].
      assert (Hk : key_truthy h = true) by (rewrite <- (hash_truthy _ _ Er); exact Et).
      rewrite (forallb_not_same prev r h seen Er Hk Hinv).
      destruct (existsb (hkey_eqb h) seen) eqn:Es; cbn [negb app].
      * apply (IH (app prev [r])); [|exact Hh']. intros h' Hk'. rewrite (Hinv h' Hk'). split.
        -- intros (r' & Hin & E). exists r'. split; [apply in_or_app; left|]; assumption.
        -- intros (r' & Hin & E). apply in_app_or in Hin. destruct Hin as [Hin|[<-|[]]].
           ++ exists r'. split; assumption.
           ++ rewrite Er in E. injection E as <-.
              apply existsb_hkey, (Hinv h Hk) in Es. exact Es.
      * rewrite (IH (app prev [r])); [rewrite <- app_assoc; reflexivity| |exact Hh'].
        intros h' Hk'. split.
        -- intros [<-|Hin].
           ++ exists r. split; [apply in_or_app; right; left; reflexivity|exact Er].
           ++ apply (Hinv h' Hk') in Hin. destruct Hin as (r' & Hin & E).
              exists r'. split; [apply in_or_app; left|]; assumption.
        -- intros (r' & Hin & E). apply in_app_or in Hin. destruct Hin as [Hin|[<-|[]]].
           ++ right. apply (Hinv h' Hk'). exists r'. split; assumption.
           ++ left. rewrite Er in E. injection E as <-. reflexivity.
    + apply (IH (app prev [r])); [|exact Hh']. intros h' Hk'. rewrite (Hinv h' Hk'). split.
      * intros (r' & Hin & E). exists r'. split; [apply in_or_app; left|]; assumption.
      * intros (r' & Hin & E). apply in_app_or in Hin. destruct Hin as [Hin|[<-|[]]].
        -- exists r'. split; assumption.
        -- rewrite (hash_truthy _ _ E) in Et. congruence.
Qed.

Lemma dedup_loop_unhashable : forall rows r seen acc,
  In r rows -> truthy (get_news_id r) = true -> hashable (get_news_id r) = false ->
  exists msg, dedup_app_loop rows seen acc = Err (TypeError msg).
Proof.
  intros rows. induction rows as [|r0 rs IH]; intros r seen acc Hin Ht Hu; [destruct Hin|].
  cbn. destruct Hin as [<-|Hin].
  - rewrite Ht. unfold hashable in Hu.
    destruct (hash_key (get_news_id r0)) as [h|e] eqn:E; [discriminate|].
    cbn [bind]. destruct (hash_key_err _ _ E) as [msg ->]. exists msg. reflexivity.
  - destruct (truthy (get_news_id r0)); [|exact (IH r _ _ Hin Ht Hu)].
    destruct (hash_key (get_news_id r0)) as [h|e] eqn:E; cbn [bind].
    + destruct (existsb (hkey_eqb h) seen); exact (IH r _ _ Hin Ht Hu).
    + destruct (hash_key_err _ _ E) as [msg ->]. exists msg. reflexivity.
Qed.

(** ** C4: de-duplication keeps first occurrences *)

(** C4 (as the code has it): when no truthy news_id is unhashable (a
    non-empty JSON array or object), both de-duplication loops return the
    rows whose news_id is truthy and unequal (in Python's sense, where
    True == 1) to every earlier row's, in input order; the kept ids are
    pairwise different and all truthy, so rows whose news_id is missing,
    None, "", 0 or false are dropped.  A truthy unhashable news_id makes the
    loop raise TypeError. *)
Theorem dedup_first_occurrences :
  (forall rows,
    (forall r, In r rows -> truthy (get_news_id r) = true ->
               hashable (get_news_id r) = true) ->
    dedup_app rows = Ok (first_occurrences rows) /\
    dedup_cli rows = Ok (first_occurrences rows) /\
    (exists hs, Forall2 (fun r h => hash_key (get_news_id r) = Ok h)
                  (first_occurrences rows) hs /\ NoDup hs) /\
    Forall (fun r => truthy (get_news_id r) = true) (first_occurrences rows)) /\
  (forall rows r,
    In r rows -> truthy (get_news_id r) = true -> hashable (get_news_id r) = false ->
    exists msg, dedup_app rows = Err (TypeError msg) /\ dedup_cli rows = Err (TypeError msg)).
Proof.
  split.
  - intros rows Hh.
    assert (E : dedup_app rows = Ok (first_occurrences rows)).
    { unfold dedup_app, first_occurrences.
      apply (dedup_loop_first rows [] [] []); [|exact Hh].
      intros h _. split; [intros []|intros (r' & [] & _)]. }
    split; [exact E|]. split; [rewrite dedup_cli_app; exact E|].
    destruct (dedup_loop_out rows [] [] _ E) as (new & hs & Hn & Hf & Hnd & _ & Ht).
    cbn in Hn. subst new. split; [exists hs; split; assumption|exact Ht].
  - intros rows r Hin Ht Hu.
    destruct (dedup_loop_unhashable rows r [] [] Hin Ht Hu) as [msg E].
    exists msg. rewrite dedup_cli_app. split; exact E.
Qed.

(** C4 fails as stated: a row whose news_id is the number 0 (present, not
    None, not empty) is dropped, and a row whose news_id is a non-empty list
    makes de-duplication raise TypeError instead of returning a list. *)
Lemma dedup_zero_and_list_ids :
  dedup_app [[("news_id", JNum 0)]] = Ok [] /\
  dedup_app [[("news_id", JArr [JStr "a"])]] = Err (TypeError "unhashable type: 'list'").
Proof. split; reflexivity. Qed.

(** Instance of C4's first part: a duplicate and an id-less row are dropped. *)
Lemma dedup_first_occurrences_witness :
  (forall r, In r [row_a1; row_none; row_a2; row_b] -> truthy (get_news_id r) = true ->
             hashable (get_news_id r) = true) /\
  first_occurrences [row_a1; row_none; row_a2; row_b] = [row_a1; row_b] /\
  dedup_app [row_a1; row_none; row_a2; row_b] = Ok (first_occurrences [row_a1; row_none; row_a2; row_b]).
Proof.
  assert (H : forall r, In r [row_a1; row_none; row_a2; row_b] ->
              truthy (get_news_id r) = true -> hashable (get_news_id r) = true).
  { intros r Hin _. destruct Hin as [<-|[<-|[<-|[<-|[]]]]]; reflexivity. }
  split; [exact H|]. split; [reflexivity|].
  exact (proj1 (proj1 dedup_first_occurrences _ H)).
Defined.

(** ** C8: de-duplication is idempotent *)

(** C8: de-duplicating the output of the de-duplication returns it
    unchanged (for the handler's loop and the CLI's). *)
Theorem dedup_idempotent : forall rows ys,
  dedup_app rows = Ok ys -> dedup_app ys = Ok ys /\ dedup_cli ys = Ok ys.
Proof.
  intros rows ys H.
  destruct (dedup_loop_out rows [] [] ys H) as (new & hs & Hn & Hf & Hnd & Hns & Ht).
  cbn in Hn. subst new.
  assert (E : dedup_app ys = Ok ys)
    by exact (dedup_loop_keeps ys hs [] [] Hf Hnd Hns Ht).
  split; [exact E|rewrite dedup_cli_app; exact E].
Qed.

Lemma dedup_idempotent_witness :
  dedup_app [row_a1; row_none; row_a2; row_b] = Ok [row_a1; row_b] /\
  dedup_app [row_a1; row_b] = Ok [row_a1; row_b] /\ dedup_cli [row_a1; row_b] = Ok [row_a1; row_b].
Proof.
  assert (H : dedup_app [row_a1; row_none; row_a2; row_b] = Ok [row_a1; row_b]) by reflexivity.
  split; [exact H|]. exact (dedup_idempotent _ _ H).
Defined.

(** ** C10: count versus the rows returned *)

(** C10: when the fetch returns rows whose de-duplication is [dd], the
    /bse response's count is [length dd] while its rows array is the first
    200 rows of [dd], of length [min 200 (length dd)], so beyond 200 unique
    ids the count exceeds the array's length; the CLI prints the same count
    with the first 50 rows of [dd]. *)
Theorem bse_count_vs_rows : forall fetcher format_exc q rows dd,
  fetcher (call_args q) = Ok rows -> dedup_app rows = Ok dd ->
  (get_bse None fetcher format_exc q
     = Respond (JObj [("count", JNum (Z.of_nat (length dd)));
                      ("rows", JArr (map JObj (firstn 200 dd)))]) /\
   length (map JObj (firstn 200 dd)) = Nat.min 200 (length dd) /\
   (200 < length dd -> length (map JObj (firstn 200 dd)) < length dd)) /\
  (cli_output rows
     = Ok (JObj [("count", JNum (Z.of_nat (length dd)));
                 ("rows", JArr (map JObj (firstn 50 dd)))]) /\
   length (map JObj (firstn 50 dd)) = Nat.min 50 (length dd)).
Proof.
  intros fetcher format_exc q rows dd Hf Hd. split.
  - unfold get_bse. cbn [_get_fetch bind].
    rewrite Hf. cbn [bind]. rewrite Hd. cbn [bind]. split; [reflexivity|].
    rewrite length_map, length_firstn. split; [reflexivity|lia].
  - unfold cli_output. rewrite dedup_cli_app, Hd.
    cbn [bind]. split; [reflexivity|]. rewrite length_map, length_firstn. reflexivity.
Qed.

Lemma bse_count_vs_rows_witness :
  200 < length rows_201 /\
  (get_bse None (fun _ => Ok rows_201) (fun _ => "") query0
     = Respond (JObj [("count", JNum (Z.of_nat (length rows_201)));
                      ("rows", JArr (map JObj (firstn 200 rows_201)))]) /\
   length (map JObj (firstn 200 rows_201)) = Nat.min 200 (length rows_201) /\
   (200 < length rows_201 -> length (map JObj (firstn 200 rows_201)) < length rows_201)) /\
  (cli_output rows_201
     = Ok (JObj [("count", JNum (Z.of_nat (length rows_201)));
                 ("rows", JArr (map JObj (firstn 50 rows_201)))]) /\
   length (map JObj (firstn 50 rows_201)) = Nat.min 50 (length rows_201)).
Proof.
  split; [vm_compute; reflexivity|].
  apply (bse_count_vs_rows (fun _ => Ok rows_201) (fun _ => "") query0 rows_201 rows_201).
  - reflexivity.
  - vm_compute. reflexivity.
Defined.

(** ** C7: the /bse handler and exceptions *)

Lemma dedup_loop_err : forall rows seen acc e,
  dedup_app_loop rows seen acc = Err e -> exists msg, e = TypeError msg.
Proof.
  intros rows. induction rows as [|r rs IH]; intros seen acc e H; cbn in H; [discriminate|].
  destruct (truthy (get_news_id r)); [|exact (IH _ _ _ H)].
  destruct (hash_key (get_news_id r)) as [h|e'] eqn:E; cbn [bind] in H.
  - destruct (existsb (hkey_eqb h) seen); exact (IH _ _ _ H).
  - injection H as <-. exact (hash_key_err _ _ E).
Qed.

(** C7 (as the code has it): whatever the lazy import and the fetcher do,
    [get_bse] answers with a JSON object, either [count]/[rows] or
    [error]/[trace] with the traceback text, unless the import or the
    fetcher raised an exception that does not derive from [Exception]
    (KeyboardInterrupt, SystemExit, GeneratorExit), which escapes.  An
    [Exception] raised by the fetcher, or by the import, gives the error
    object. *)
Theorem bse_handler_catches_exceptions :
  (forall import_failure fetcher format_exc q,
    match get_bse import_failure fetcher format_exc q with
    | Respond j =>
        (exists dd, j = count_rows_body dd (firstn 200 dd)) \/
        (exists e, is_Exception e = true /\ j = error_body (format_exc e))
    | Raise e =>
        is_Exception e = false /\
        (import_failure = Some e \/
         (import_failure = None /\ fetcher (call_args q) = Err e))
    end) /\
  (forall fetcher format_exc q e,
    fetcher (call_args q) = Err e -> is_Exception e = true ->
    get_bse None fetcher format_exc q = Respond (error_body (format_exc e))) /\
  (forall fetcher format_exc q e,
    is_Exception e = true ->
    get_bse (Some e) fetcher format_exc q
      = Respond (error_body (format_exc (RuntimeError ("ImportError:" ++ newline
                                                       ++ format_exc e))))).
Proof.
  split; [|split].
  - intros [e|] fetcher format_exc q; unfold get_bse, _get_fetch.
    + destruct (is_Exception e) eqn:E; cbn [bind is_Exception].
      * right. exists (RuntimeError ("ImportError:" ++ newline ++ format_exc e)).
        split; reflexivity.
      * cbv beta iota. rewrite E. split; [exact E|left; reflexivity].
    + cbn [bind]. destruct (fetcher (call_args q)) as [rows|e] eqn:Ef; cbn [bind].
      * destruct (dedup_app rows) as [dd|e] eqn:Ed; cbn [bind].
        -- left. exists dd. reflexivity.
        -- destruct (dedup_loop_err _ _ _ _ Ed) as [msg ->]. cbn [is_Exception].
           right. exists (TypeError msg). split; reflexivity.
      * destruct (is_Exception e) eqn:E.
        -- right. exists e. split; [exact E|reflexivity].
        -- split; [exact E|right; split; [reflexivity|reflexivity]].
  - intros fetcher format_exc q e Hf He. unfold get_bse. cbn [_get_fetch bind].
    rewrite Hf. cbn [bind]. rewrite He. reflexivity.
  - intros fetcher format_exc q e He. unfold get_bse, _get_fetch. rewrite He. reflexivity.
Qed.

(** C7 fails as stated: a fetcher raising KeyboardInterrupt (an exception
    that derives from BaseException only) is not caught: the handler
    returns no JSON object and the exception escapes. *)
Lemma bse_handler_keyboard_interrupt :
  get_bse None (fun _ => Err KeyboardInterrupt) (fun _ => "Traceback") query0
  = Raise KeyboardInterrupt.
Proof. reflexivity. Qed.

(** ** C1: rows accumulated on a full page *)

(** C1 (code behaviour): the loops over the endpoints and the parameter
    variants have no [break] after a productive variant, so on a page
    where every combination returns a full page (20 rows) all 2 x 3
    combinations are requested and all of their rows are appended: with
    [max_pages = 1] the result holds the 20 normalized rows six times. *)
Theorem fetch_full_page_all_variants :
  exists nr,
    mapM normalize_row (_extract_rows full_page) = Ok nr /\ length nr = 20 /\
    fetch_announcements today0 srv_full (args_pages 1)
      = (Ok (concat (repeat nr 6)),
         list_prod ENDPOINTS
           (_param_variants "C" "0" "01/01/2025" "07/01/2025" 1 "" "" "")).
Proof.
  exists (match mapM normalize_row (_extract_rows full_page) with Ok l => l | Err _ => [] end).
  split; [|split]; vm_compute; reflexivity.
Qed.

(** ** C2: a short page is the last page *)

Lemma resp_at_app : forall srv tr new j,
  j < length tr -> resp_at srv (app tr new) j = resp_at srv tr j.
Proof.
  intros srv tr new j Hj. unfold resp_at.
  rewrite (nth_error_app1 _ _ Hj), (firstn_app _ tr new).
  replace (j - length tr) with 0 by lia. rewrite firstn_O, app_nil_r.
  reflexivity.
Qed.

Lemma resp_at_last : forall srv tr url params,
  resp_at srv (app tr [(url, params)]) (length tr) = Some (srv tr url params).
Proof.
  intros srv tr url params. unfold resp_at.
  rewrite nth_error_app2, Nat.sub_diag by lia. cbn [nth_error].
  rewrite firstn_app, firstn_all, Nat.sub_diag, firstn_O, app_nil_r. reflexivity.
Qed.

Lemma resp_at_none : forall srv tr j, length tr <= j -> resp_at srv tr j = None.
Proof.
  intros srv tr j Hj. unfold resp_at. rewrite (proj2 (nth_error_None tr j) Hj). reflexivity.
Qed.

Lemma short_page_rows : forall pl,
  short_page pl = true ->
  truthy pl = true /\ 0 < length (_extract_rows pl) /\ length (_extract_rows pl) < 20.
Proof.
  intros pl H. unfold short_page in H.
  apply andb_prop in H as [H H3]. apply andb_prop in H as [H1 H2].
  apply Nat.ltb_lt in H2, H3. auto.
Qed.

Lemma variants_pageno : forall sg sub f t page se c sc p,
  In p (_param_variants sg sub f t page se c sc) ->
  sdict_get p "pageno" = Some (str_of_Z page).
Proof.
  intros sg sub f t page se c sc p H.
  destruct H as [<-|[<-|[<-|[]]]]; reflexivity.
Qed.

(** One step of a loop: the call [x] is made at index [length tr]; a
    [j] at or after it is either that call or comes after it. *)
Lemma resp_at_step : forall srv tr x new j pl,
  length tr <= j -> resp_at srv (app (app tr [x]) new) j = Some pl ->
  (j = length tr /\ pl = srv tr (fst x) (snd x)) \/ length (app tr [x]) <= j.
Proof.
  intros srv tr [url params] new j pl Hj H.
  destruct (Nat.eq_dec j (length tr)) as [->|Hne].
  - left. rewrite resp_at_app in H by (rewrite length_app; cbn; lia).
    rewrite resp_at_last in H. injection H as <-. split; reflexivity.
  - right. rewrite length_app. cbn. lia.
Qed.

Lemma for_params_trace : forall srv url ps acc g tr r tr',
  for_params srv url ps acc g tr = (r, tr') ->
  (exists new, tr' = app tr new /\ Forall (fun q => In (snd q) ps) new) /\
  (forall j pl, length tr <= j -> resp_at srv tr' j = Some pl -> short_page pl = true ->
     S j = length tr' /\ exists o acc0, r = PStop o /\ o = stop_outcome acc0 pl).
Proof.
  intros srv url ps. induction ps as [|params ps IH]; intros acc g tr r tr' H.
  - cbn in H. injection H as <- <-. split.
    + exists []. rewrite app_nil_r. split; [reflexivity|constructor].
    + intros j pl Hj Hr. rewrite resp_at_none in Hr by exact Hj. discriminate.
  - cbn [for_params] in H.
    set (payload := srv tr url params) in H.
    (* the loop goes on with the trace [tr ++ [(url, params)]] *)
    assert (Hcont : forall acc' g',
      for_params srv url ps acc' g' (app tr [(url, params)]) = (r, tr') ->
      short_page payload = false ->
      (exists new, tr' = app tr new /\ Forall (fun q => In (snd q) (params :: ps)) new) /\
      (forall j pl, length tr <= j -> resp_at srv tr' j = Some pl -> short_page pl = true ->
         S j = length tr' /\ exists o acc0, r = PStop o /\ o = stop_outcome acc0 pl)).
    { intros acc' g' Hf Hs.
      destruct (IH _ _ _ _ _ Hf) as [[new [-> Hnew]] Hj]. split.
      - exists ((url, params) :: new). rewrite <- app_assoc. split; [reflexivity|].
        constructor; [left; reflexivity|].
        eapply Forall_impl; [|exact Hnew]. intros q Hq. right. exact Hq.
      - intros j pl Hle Hr Hsp.
        destruct (resp_at_step _ _ _ _ _ _ Hle Hr) as [[_ ->]|Hge].
        + cbn in Hsp. fold payload in Hsp. congruence.
        + exact (Hj j pl Hge Hr Hsp). }
    destruct (truthy payload) eqn:Et; cbn [negb] in H.
    + destruct (_extract_rows payload) as [|r0 rs] eqn:Er.
      * apply (Hcont acc g H). unfold short_page. rewrite Er, Et. reflexivity.
      * destruct (mapM normalize_row (r0 :: rs)) as [nr|e] eqn:En.
        -- destruct (length (r0 :: rs) <? 20) eqn:El.
           ++ injection H as <- <-. split.
              ** exists [(url, params)]. split; [reflexivity|].
                 constructor; [left; reflexivity|constructor].
              ** intros j pl Hle Hr Hsp.
                 assert (Hj : j = length tr).
                 { destruct (Nat.eq_dec j (length tr)) as [|Hne]; [assumption|].
                   rewrite resp_at_none in Hr; [discriminate|].
                   rewrite length_app. cbn. lia. }
                 subst j. rewrite resp_at_last in Hr. injection Hr as <-.
                 split; [rewrite length_app; cbn; lia|].
                 exists (Ok (app acc nr)), acc. split; [reflexivity|].
                 unfold stop_outcome. fold payload. rewrite Er, En. reflexivity.
           ++ apply (Hcont (app acc nr) true H). unfold short_page.
              rewrite Er, El. apply andb_false_r.
        -- injection H as <- <-. split.
           ++ exists [(url, params)]. split; [reflexivity|].
              constructor; [left; reflexivity|constructor].
           ++ intros j pl Hle Hr Hsp.
              assert (Hj : j = length tr).
              { destruct (Nat.eq_dec j (length tr)) as [|Hne]; [assumption|].
                rewrite resp_at_none in Hr; [discriminate|].
                rewrite length_app. cbn. lia. }
              subst j. rewrite resp_at_last in Hr. injection Hr as <-.
              split; [rewrite length_app; cbn; lia|].
              exists (Err e), acc. split; [reflexivity|].
              unfold stop_outcome. fold payload. rewrite Er, En. reflexivity.
    + apply (Hcont acc g H). unfold short_page. rewrite Et. reflexivity.
Qed.

Lemma for_urls_trace : forall srv urls ps acc g tr r tr',
  for_urls srv urls ps acc g tr = (r, tr') ->
  (exists new, tr' = app tr new /\ Forall (fun q => In (snd q) ps) new) /\
  (forall j pl, length tr <= j -> resp_at srv tr' j = Some pl -> short_page pl = true ->
     S j = length tr' /\ exists o acc0, r = PStop o /\ o = stop_outcome acc0 pl).
Proof.
  intros srv urls ps. induction urls as [|url urls IH]; intros acc g tr r tr' H.
  - cbn in H. injection H as <- <-. split.
    + exists []. rewrite app_nil_r. split; [reflexivity|constructor].
    + intros j pl Hj Hr. rewrite resp_at_none in Hr by exact Hj. discriminate.
  - cbn [for_urls] in H.
    destruct (for_params srv url ps acc g tr) as [[o1|acc1 g1] tr1] eqn:E.
    + injection H as <- <-. exact (for_params_trace _ _ _ _ _ _ _ _ E).
    + destruct (for_params_trace _ _ _ _ _ _ _ _ E) as [[new1 [-> Hn1]] Hj1].
      destruct (IH _ _ _ _ _ H) as [[new2 [-> Hn2]] Hj2]. split.
      * exists (app new1 new2). rewrite app_assoc. split; [reflexivity|].
        apply Forall_app. split; assumption.
      * intros j pl Hle Hr Hsp.
        destruct (Nat.lt_ge_cases j (length (app tr new1))) as [Hlt|Hge].
        -- rewrite resp_at_app in Hr by exact Hlt.
           destruct (Hj1 j pl Hle Hr Hsp) as [_ [o [acc0 [Hc _]]]]. discriminate.
        -- exact (Hj2 j pl Hge Hr Hsp).
Qed.

Lemma nth_error_app_new : forall (tr new : list request) k q,
  length tr <= k -> nth_error (app tr new) k = Some q -> In q new.
Proof.
  intros tr new k q Hk H. rewrite nth_error_app2 in H by exact Hk.
  exact (nth_error_In _ _ H).
Qed.

Lemma pages_trace : forall srv a f t fuel page acc tr o tr',
  pages srv a f t fuel page acc tr = (o, tr') ->
  (exists new, tr' = app tr new /\
     Forall (fun q => exists pg, (page <= pg)%Z /\ req_page q pg) new) /\
  (forall j pl, length tr <= j -> resp_at srv tr' j = Some pl -> short_page pl = true ->
     S j = length tr' /\ (exists acc0, o = stop_outcome acc0 pl) /\
     exists pg q, nth_error tr' j = Some q /\ req_page q pg /\
       forall k q', length tr <= k -> nth_error tr' k = Some q' ->
         exists pg', (page <= pg' <= pg)%Z /\ req_page q' pg').
Proof.
  intros srv a f t fuel. induction fuel as [|fuel IH]; intros page acc tr o tr' H.
  - cbn in H. injection H as <- <-. split.
    + exists []. rewrite app_nil_r. split; [reflexivity|constructor].
    + intros j pl Hj Hr. rewrite resp_at_none in Hr by exact Hj. discriminate.
  - cbn [pages] in H.
    destruct (page <=? fa_max_pages a)%Z eqn:Hp.
    2:{ injection H as <- <-. split.
        + exists []. rewrite app_nil_r. split; [reflexivity|constructor].
        + intros j pl Hj Hr. rewrite resp_at_none in Hr by exact Hj. discriminate. }
    set (ps := _param_variants (fa_segment a) (fa_submission_type a) f t page
                 (fa_search a) (fa_category a) (fa_subcategory a)) in H.
    assert (Hps : forall q, In (snd q) ps -> req_page q page).
    { intros q Hq. exact (variants_pageno _ _ _ _ _ _ _ _ _ Hq). }
    destruct (for_urls srv ENDPOINTS ps acc false tr) as [[o1|acc1 g1] tr1] eqn:E;
      destruct (for_urls_trace _ _ _ _ _ _ _ _ E) as [[new1 [-> Hn1]] Hj1].
    + injection H as <- <-. split.
      * exists new1. split; [reflexivity|].
        eapply Forall_impl; [|exact Hn1]. intros q Hq. exists page.
        split; [lia|exact (Hps q Hq)].
      * intros j pl Hle Hr Hsp.
        destruct (Hj1 j pl Hle Hr Hsp) as [Hlen [o [acc0 [Hc Ho]]]].
        injection Hc as <-. split; [exact Hlen|]. split; [exists acc0; exact Ho|].
        destruct (nth_error (app tr new1) j) as [q|] eqn:Eq.
        2:{ apply nth_error_None in Eq. lia. }
        exists page, q. split; [reflexivity|]. split.
        -- apply Hps. exact (proj1 (Forall_forall _ _) Hn1 q (nth_error_app_new _ _ _ _ Hle Eq)).
        -- intros k q' Hk Eq'. exists page. split; [lia|].
           apply Hps.
           exact (proj1 (Forall_forall _ _) Hn1 q' (nth_error_app_new _ _ _ _ Hk Eq')).
    + assert (Hno : forall j pl, length tr <= j -> resp_at srv (app tr new1) j = Some pl ->
                      short_page pl = true -> False).
      { intros j pl Hle Hr Hsp. destruct (Hj1 j pl Hle Hr Hsp) as [_ [o' [acc0 [Hc _]]]].
        discriminate. }
      destruct g1; cbn [negb] in H.
      2:{ injection H as <- <-. split.
          - exists new1. split; [reflexivity|].
            eapply Forall_impl; [|exact Hn1]. intros q Hq. exists page.
            split; [lia|exact (Hps q Hq)].
          - intros j pl Hle Hr Hsp. destruct (Hno j pl Hle Hr Hsp). }
      destruct (IH _ _ _ _ _ H) as [[new2 [-> Hn2]] Hj2]. split.
      * exists (app new1 new2). rewrite app_assoc. split; [reflexivity|].
        apply Forall_app. split.
        -- eapply Forall_impl; [|exact Hn1]. intros q Hq. exists page.
           split; [lia|exact (Hps q Hq)].
        -- eapply Forall_impl; [|exact Hn2]. intros q [pg [Hpg Hq]]. exists pg.
           split; [lia|exact Hq].
      * intros j pl Hle Hr Hsp.
        destruct (Nat.lt_ge_cases j (length (app tr new1))) as [Hlt|Hge].
        -- rewrite resp_at_app in Hr by exact Hlt. destruct (Hno j pl Hle Hr Hsp).
        -- destruct (Hj2 j pl Hge Hr Hsp) as [Hlen [Ho [pg [q [Eq [Hq Hk]]]]]].
           split; [exact Hlen|]. split; [exact Ho|].
           assert (Hpg : (page + 1 <= pg)%Z).
           { destruct (Hk j q Hge Eq) as [pg' [Hpg' _]]. lia. }
           exists pg, q. split; [exact Eq|]. split; [exact Hq|].
           intros k q' Hk' Eq'.
           destruct (Nat.lt_ge_cases k (length (app tr new1))) as [Hlt|Hge'].
           ++ rewrite nth_error_app1 in Eq' by exact Hlt.
              exists page. split; [lia|]. apply Hps.
              exact (proj1 (Forall_forall _ _) Hn1 q' (nth_error_app_new _ _ _ _ Hk' Eq')).
           ++ destruct (Hk k q' Hge' Eq') as [pg' [Hpg' Hq']].
              exists pg'. split; [lia|exact Hq'].
Qed.

(** C2: if the response to a request made by [fetch_announcements] yields
    a non-empty row list of fewer than 20 rows, that request is the last
    one made, the outcome is the rows accumulated so far extended by the
    normalized rows of that response (or the exception [normalize_row]
    raises on them), and no request of the run asks for a page number
    higher than the page of that request.  (A response with an empty row
    list does not stop the loop: the code goes on to the next variant.) *)
Theorem fetch_short_page_is_last : forall today srv a o tr j pl,
  fetch_announcements today srv a = (o, tr) ->
  resp_at srv tr j = Some pl -> short_page pl = true ->
  S j = length tr /\
  (exists acc0, o = stop_outcome acc0 pl) /\
  (exists pg q, nth_error tr j = Some q /\ req_page q pg /\
     forall k q', nth_error tr k = Some q' ->
       exists pg', (1 <= pg' <= pg)%Z /\ req_page q' pg').
Proof.
  intros today srv a o tr j pl H Hr Hsp. unfold fetch_announcements in H.
  destruct (to_site_date today (Some (fa_from_date a))) as [f|e].
  2:{ injection H as _ <-. rewrite resp_at_none in Hr by (cbn; lia). discriminate. }
  destruct (to_site_date today (Some (fa_to_date a))) as [t|e].
  2:{ injection H as _ <-. rewrite resp_at_none in Hr by (cbn; lia). discriminate. }
  destruct (proj2 (pages_trace _ _ _ _ _ _ _ _ _ _ H) j pl (Nat.le_0_l _) Hr Hsp)
    as [Hlen [Ho [pg [q [Eq [Hq Hk]]]]]].
  split; [exact Hlen|]. split; [exact Ho|].
  exists pg, q. split; [exact Eq|]. split; [exact Hq|].
  intros k q' Eq'. exact (Hk k q' (Nat.le_0_l _) Eq').
Qed.

Lemma fetch_short_page_is_last_witness :
  fetch_announcements today0 srv_short (args_pages 3)
    = (fst (fetch_announcements today0 srv_short (args_pages 3)),
       snd (fetch_announcements today0 srv_short (args_pages 3))) /\
  resp_at srv_short (snd (fetch_announcements today0 srv_short (args_pages 3))) 2
    = Some short_page3 /\
  short_page short_page3 = true /\
  S 2 = length (snd (fetch_announcements today0 srv_short (args_pages 3))) /\
  (exists acc0, fst (fetch_announcements today0 srv_short (args_pages 3))
                  = stop_outcome acc0 short_page3).
Proof.
  assert (H1 : fetch_announcements today0 srv_short (args_pages 3)
    = (fst (fetch_announcements today0 srv_short (args_pages 3)),
       snd (fetch_announcements today0 srv_short (args_pages 3))))
    by (destruct (fetch_announcements today0 srv_short (args_pages 3)); reflexivity).
  assert (H2 : resp_at srv_short (snd (fetch_announcements today0 srv_short (args_pages 3))) 2
    = Some short_page3) by (vm_compute; reflexivity).
  assert (H3 : short_page short_page3 = true) by (vm_compute; reflexivity).
  destruct (fetch_short_page_is_last _ _ _ _ _ _ _ H1 H2 H3) as [Hlen [Ho _]].
  split; [exact H1|]. split; [exact H2|]. split; [exact H3|]. split; [exact Hlen|exact Ho].
Defined.

(** ** C3: [to_site_date] *)

Lemma str_app_assoc : forall s1 s2 s3 : string, (s1 ++ s2) ++ s3 = s1 ++ (s2 ++ s3).
Proof. induction s1 as [|c s1 IH]; intros s2 s3; cbn; [reflexivity|rewrite IH; reflexivity]. Qed.

Lemma str_app_nil_r : forall s : string, s ++ "" = s.
Proof. induction s as [|c s IH]; cbn; [reflexivity|rewrite IH; reflexivity]. Qed.

Lemma str_forallb_app : forall p s1 s2,
  str_forallb p (s1 ++ s2) = str_forallb p s1 && str_forallb p s2.
Proof.
  intros p s1 s2. induction s1 as [|c s1 IH]; cbn; [reflexivity|].
  rewrite IH. apply andb_assoc.
Qed.

Lemma digit_is_digit : forall n, n < 10 -> is_digit (digit n) = true.
Proof. intros n H. do 10 (destruct n as [|n]; [reflexivity|]). lia. Qed.

Lemma digit_not_space : forall n, n < 10 -> is_space (digit n) = false.
Proof. intros n H. do 10 (destruct n as [|n]; [reflexivity|]). lia. Qed.

Lemma digit_value : forall n, n < 10 -> code (digit n) - 48 = n.
Proof. intros n H. do 10 (destruct n as [|n]; [reflexivity|]). lia. Qed.

Lemma year_bound : forall y, y <= 9999 -> y < 10 * 10 * 10 * 10.
Proof. intros y H. eapply Nat.le_lt_trans; [exact H|]. apply Nat.ltb_lt. reflexivity. Qed.

Lemma pad4_digits : forall y, y <= 9999 ->
  y / 1000 < 10 /\ y / 100 mod 10 < 10 /\ y / 10 mod 10 < 10 /\ y mod 10 < 10.
Proof.
  intros y H. apply year_bound in H.
  split; [apply Nat.Div0.div_lt_upper_bound; lia|].
  split; [apply Nat.mod_upper_bound; lia|].
  split; apply Nat.mod_upper_bound; lia.
Qed.

Lemma pad2_digits : forall m, m < 100 -> m / 10 < 10 /\ m mod 10 < 10.
Proof.
  intros m H. split; [apply Nat.Div0.div_lt_upper_bound; lia|apply Nat.mod_upper_bound; lia].
Qed.

Lemma tok_value_pad4 : forall y, y <= 9999 -> tok_value (pad4 y) = y.
Proof.
  intros y H. destruct (pad4_digits y H) as [H1 [H2 [H3 H4]]].
  unfold tok_value, pad4. cbn [tok_value_acc].
  rewrite (digit_is_digit _ H1), (digit_is_digit _ H2), (digit_is_digit _ H3),
          (digit_is_digit _ H4).
  rewrite (digit_value _ H1), (digit_value _ H2), (digit_value _ H3), (digit_value _ H4).
  pose proof (Nat.div_mod_eq y 10) as E1.
  pose proof (Nat.div_mod_eq (y / 10) 10) as E2.
  pose proof (Nat.div_mod_eq (y / 100) 10) as E3.
  rewrite Nat.Div0.div_div in E2, E3.
  change (10 * 10) with 100 in E2. change (100 * 10) with 1000 in E3.
  lia.
Qed.

Lemma tok_value_pad2 : forall m, m < 100 -> tok_value (pad2 m) = m.
Proof.
  intros m H. destruct (pad2_digits m H) as [H1 H2].
  unfold tok_value, pad2. cbn [tok_value_acc].
  rewrite (digit_is_digit _ H1), (digit_is_digit _ H2).
  rewrite (digit_value _ H1), (digit_value _ H2).
  pose proof (Nat.div_mod_eq m 10). lia.
Qed.

Lemma days_in_month_le : forall y m, days_in_month y m <= 31.
Proof.
  intros y m. unfold days_in_month.
  destruct m as [|[|[|[|[|[|[|[|[|[|[|[|m]]]]]]]]]]]]; try destruct (is_leap y); lia.
Qed.

Lemma valid_date_bounds : forall dt, valid_date dt = true ->
  year dt <= 9999 /\ 1 <= month dt <= 12 /\ 1 <= day dt <= 31.
Proof.
  intros [y m d] H. unfold valid_date in H. cbn [year month day] in *.
  apply andb_prop in H as [H H6]. apply andb_prop in H as [H H5].
  apply andb_prop in H as [H H4]. apply andb_prop in H as [H H3].
  apply andb_prop in H as [H1 H2].
  apply Nat.leb_le in H2, H3, H4, H5, H6.
  pose proof (days_in_month_le y m).
  split; [exact H2|]. split; lia.
Qed.

Lemma match_dirs_cons : forall {A} d ds s (k : list string -> string -> option A),
  match_dirs (d :: ds) s k
  = try_alts (alts d) s (fun t r => match_dirs ds r (fun ts r' => k (t :: ts) r')).
Proof. reflexivity. Qed.

(** [%Y] on four digits: the only alternative. *)
Lemma try_alts_DY : forall {A} y X (K : string -> string -> option A),
  y <= 9999 ->
  try_alts (alts DY) (pad4 y ++ X) K
  = match K (pad4 y) X with Some x => Some x | None => None end.
Proof.
  intros A y X K H. destruct (pad4_digits y H) as [H1 [H2 [H3 H4]]].
  unfold pad4. cbn [append try_alts alts match_seq].
  rewrite (digit_is_digit _ H1), (digit_is_digit _ H2), (digit_is_digit _ H3),
          (digit_is_digit _ H4).
  reflexivity.
Qed.

(** [%d] on the two digits [strftime] writes: the first alternative that
    matches is the whole two-digit day. *)
Lemma try_alts_Dd : forall {A} d X (K : string -> string -> option A) z,
  1 <= d <= 31 -> K (pad2 d) X = Some z -> try_alts (alts Dd) (pad2 d ++ X) K = Some z.
Proof.
  intros A d X K z Hd HK.
  do 32 (destruct d as [|d]; [try lia; vm_compute in HK |- *; rewrite HK; reflexivity|]).
  lia.
Qed.

Lemma try_alts_Dm : forall {A} m X (K : string -> string -> option A) z,
  1 <= m <= 12 -> K (pad2 m) X = Some z -> try_alts (alts Dm) (pad2 m ++ X) K = Some z.
Proof.
  intros A m X K z Hm HK.
  do 13 (destruct m as [|m]; [try lia; vm_compute in HK |- *; rewrite HK; reflexivity|]).
  lia.
Qed.

Lemma try_alts_lit : forall {A} c X (K : string -> string -> option A) z,
  K (String c EmptyString) X = Some z -> try_alts (alts (DLit c)) (String c X) K = Some z.
Proof.
  intros A c X K z HK. cbn [try_alts alts match_seq].
  unfold ch. rewrite Ascii.eqb_refl. rewrite HK. reflexivity.
Qed.

(** A date rendered by [strftime fmt] is matched by the pattern of [fmt],
    the groups being the rendered fields. *)
Lemma match_dirs_render : forall {A} fmt dt X (k : list string -> string -> option A) z,
  year dt <= 9999 -> 1 <= month dt <= 12 -> 1 <= day dt <= 31 ->
  k (toks_of fmt dt) X = Some z -> match_dirs fmt (strftime fmt dt ++ X) k = Some z.
Proof.
  intros A fmt dt X. induction fmt as [|dir fmt IH]; intros k z Hy Hm Hd Hk.
  - exact Hk.
  - rewrite match_dirs_cons. destruct dir as [| | |c].
    + change (strftime (DY :: fmt) dt) with (pad4 (year dt) ++ strftime fmt dt).
      rewrite str_app_assoc, (try_alts_DY _ _ _ Hy). cbv beta.
      rewrite (IH (fun ts r' => k (pad4 (year dt) :: ts) r') z Hy Hm Hd Hk). reflexivity.
    + change (strftime (Dm :: fmt) dt) with (pad2 (month dt) ++ strftime fmt dt).
      rewrite str_app_assoc. apply try_alts_Dm; [exact Hm|].
      exact (IH (fun ts r' => k (pad2 (month dt) :: ts) r') z Hy Hm Hd Hk).
    + change (strftime (Dd :: fmt) dt) with (pad2 (day dt) ++ strftime fmt dt).
      rewrite str_app_assoc. apply try_alts_Dd; [exact Hd|].
      exact (IH (fun ts r' => k (pad2 (day dt) :: ts) r') z Hy Hm Hd Hk).
    + change (strftime (DLit c :: fmt) dt ++ X) with (String c (strftime fmt dt ++ X)).
      apply try_alts_lit.
      exact (IH (fun ts r' => k (String c EmptyString :: ts) r') z Hy Hm Hd Hk).
Qed.

Lemma strptime_render : forall fmt dt,
  In fmt DATE_FORMATS -> valid_date dt = true -> strptime fmt (strftime fmt dt) = Ok dt.
Proof.
  intros fmt dt Hf Hv. destruct (valid_date_bounds dt Hv) as [Hy [Hm Hd]].
  assert (Hr : regex_match fmt (strftime fmt dt) = Some (toks_of fmt dt, EmptyString)).
  { unfold regex_match. rewrite <- (str_app_nil_r (strftime fmt dt)).
    apply match_dirs_render; auto. }
  unfold strptime. rewrite Hr.
  assert (Hg : group_of DY fmt (toks_of fmt dt) = year dt /\
               group_of Dm fmt (toks_of fmt dt) = month dt /\
               group_of Dd fmt (toks_of fmt dt) = day dt).
  { destruct Hf as [<-|[<-|[<-|[<-|[]]]]]; cbn [group_of toks_of map FMT_YMD_DASH FMT_DMY_SLASH FMT_DMY_DASH FMT_YMD_SLASH];
      rewrite tok_value_pad4, !tok_value_pad2 by lia; auto. }
  destruct Hg as [-> [-> ->]]. destruct dt as [y m d]. cbn [year month day] in *.
  rewrite Hv. reflexivity.
Qed.

Lemma ch_digit : forall c b, is_digit c = false -> is_digit b = true -> ch c b = false.
Proof.
  intros c b Hc Hb. unfold ch. destruct (Ascii.eqb_spec c b) as [->|]; [congruence|reflexivity].
Qed.

(** [%Y] needs four digits. *)
Lemma DY_fail3 : forall {A} ds a b e X (k : list string -> string -> option A),
  is_digit e = false -> match_dirs (DY :: ds) (String a (String b (String e X))) k = None.
Proof.
  intros A ds a b e X k He. rewrite match_dirs_cons. cbn [try_alts alts match_seq].
  rewrite He. destruct (is_digit a), (is_digit b); reflexivity.
Qed.

(** [%d] followed by the literal [c], on a text whose second and third
    characters are not [c]. *)
Lemma Dd_lit_fail : forall {A} c ds a b e X (k : list string -> string -> option A),
  ch c b = false -> ch c e = false ->
  match_dirs (Dd :: DLit c :: ds) (String a (String b (String e X))) k = None.
Proof.
  intros A c ds a b e X k Hb He. rewrite match_dirs_cons.
  cbn [try_alts alts match_seq match_dirs].
  repeat (cbv beta iota; try rewrite Hb; try rewrite He;
          match goal with |- context [if ?x then _ else _] => destruct x end);
  try rewrite Hb; try rewrite He; cbv beta iota; reflexivity.
Qed.

Lemma rstrip_id : forall s, str_forallb (fun c => negb (is_space c)) s = true -> rstrip s = s.
Proof.
  induction s as [|c s IH]; intros H; cbn in *; [reflexivity|].
  apply andb_prop in H as [Hc H]. rewrite (IH H).
  destruct s; [|reflexivity]. apply negb_true_iff in Hc. rewrite Hc. reflexivity.
Qed.

Lemma strip_id : forall s, str_forallb (fun c => negb (is_space c)) s = true -> strip s = s.
Proof.
  intros s H. unfold strip.
  assert (Hl : lstrip s = s).
  { destruct s as [|c s]; [reflexivity|]. cbn in H |- *.
    apply andb_prop in H as [Hc _]. apply negb_true_iff in Hc. rewrite Hc. reflexivity. }
  rewrite Hl. exact (rstrip_id s H).
Qed.

Lemma strftime_no_space : forall fmt dt,
  year dt <= 9999 -> month dt < 100 -> day dt < 100 ->
  forallb (fun d => match d with DLit c => negb (is_space c) | _ => true end) fmt = true ->
  str_forallb (fun c => negb (is_space c)) (strftime fmt dt) = true.
Proof.
  intros fmt dt Hy Hm Hd. induction fmt as [|dir fmt IH]; intros Hf; [reflexivity|].
  cbn [forallb] in Hf. apply andb_prop in Hf as [Hdir Hf].
  destruct dir as [| | |c].
  - change (strftime (DY :: fmt) dt) with (pad4 (year dt) ++ strftime fmt dt).
    rewrite str_forallb_app, (IH Hf), andb_true_r.
    destruct (pad4_digits _ Hy) as [H1 [H2 [H3 H4]]].
    unfold pad4. cbn [str_forallb].
    rewrite (digit_not_space _ H1), (digit_not_space _ H2), (digit_not_space _ H3),
            (digit_not_space _ H4). reflexivity.
  - change (strftime (Dm :: fmt) dt) with (pad2 (month dt) ++ strftime fmt dt).
    rewrite str_forallb_app, (IH Hf), andb_true_r.
    destruct (pad2_digits _ Hm) as [H1 H2]. unfold pad2. cbn [str_forallb].
    rewrite (digit_not_space _ H1), (digit_not_space _ H2). reflexivity.
  - change (strftime (Dd :: fmt) dt) with (pad2 (day dt) ++ strftime fmt dt).
    rewrite str_forallb_app, (IH Hf), andb_true_r.
    destruct (pad2_digits _ Hd) as [H1 H2]. unfold pad2. cbn [str_forallb].
    rewrite (digit_not_space _ H1), (digit_not_space _ H2). reflexivity.
  - change (strftime (DLit c :: fmt) dt) with (String c (strftime fmt dt)).
    cbn [str_forallb]. rewrite Hdir, (IH Hf). reflexivity.
Qed.

Lemma strptime_no_match : forall fmt s,
  regex_match fmt s = None -> exists e, strptime fmt s = Err e.
Proof. intros fmt s H. unfold strptime. rewrite H. eexists. reflexivity. Qed.

(** The formats are tried in order; each rendering is refused by the
    formats before its own. *)
Lemma try_formats_render : forall fmt dt,
  In fmt DATE_FORMATS -> valid_date dt = true ->
  try_formats DATE_FORMATS (strftime fmt dt) = Ok (strftime FMT_DMY_SLASH dt).
Proof.
  intros fmt dt Hf Hv. destruct (valid_date_bounds dt Hv) as [Hy [Hm Hd]].
  pose proof (strptime_render fmt dt Hf Hv) as Hs.
  destruct (pad4_digits _ Hy) as [Y1 [Y2 [Y3 Y4]]].
  assert (D2 : day dt mod 10 < 10) by (apply Nat.mod_upper_bound; lia).
  assert (Hsl : is_digit "/" = false) by reflexivity.
  destruct Hf as [<-|[<-|[<-|[<-|[]]]]]; cbn [try_formats DATE_FORMATS].
  - rewrite Hs. reflexivity.
  - destruct (strptime_no_match FMT_YMD_DASH (strftime FMT_DMY_SLASH dt)) as [e1 E1].
    { unfold regex_match, FMT_YMD_DASH. apply DY_fail3. reflexivity. }
    rewrite E1, Hs. reflexivity.
  - destruct (strptime_no_match FMT_YMD_DASH (strftime FMT_DMY_DASH dt)) as [e1 E1].
    { unfold regex_match, FMT_YMD_DASH. apply DY_fail3. reflexivity. }
    destruct (strptime_no_match FMT_DMY_SLASH (strftime FMT_DMY_DASH dt)) as [e2 E2].
    { unfold regex_match, FMT_DMY_SLASH. apply Dd_lit_fail.
      - exact (ch_digit _ _ Hsl (digit_is_digit _ D2)).
      - reflexivity. }
    rewrite E1, E2, Hs. reflexivity.
  - change (strftime FMT_YMD_SLASH dt)
      with (pad4 (year dt) ++ String "/" (pad2 (month dt) ++ String "/" (pad2 (day dt) ++ "")))
      in Hs |- *.
    destruct (strptime_no_match FMT_YMD_DASH
      (pad4 (year dt) ++ String "/" (pad2 (month dt) ++ String "/" (pad2 (day dt) ++ ""))))
      as [e1 E1].
    { unfold regex_match, FMT_YMD_DASH. rewrite match_dirs_cons, (try_alts_DY _ _ _ Hy).
      reflexivity. }
    destruct (strptime_no_match FMT_DMY_SLASH
      (pad4 (year dt) ++ String "/" (pad2 (month dt) ++ String "/" (pad2 (day dt) ++ ""))))
      as [e2 E2].
    { unfold regex_match, FMT_DMY_SLASH. apply Dd_lit_fail.
      - exact (ch_digit _ _ Hsl (digit_is_digit _ Y2)).
      - exact (ch_digit _ _ Hsl (digit_is_digit _ Y3)). }
    destruct (strptime_no_match FMT_DMY_DASH
      (pad4 (year dt) ++ String "/" (pad2 (month dt) ++ String "/" (pad2 (day dt) ++ ""))))
      as [e3 E3].
    { unfold regex_match, FMT_DMY_DASH. apply Dd_lit_fail.
      - exact (ch_digit "-" _ eq_refl (digit_is_digit _ Y2)).
      - exact (ch_digit "-" _ eq_refl (digit_is_digit _ Y3)). }
    rewrite E1, E2, E3, Hs. reflexivity.
Qed.

(** C3 (as the code has it): (a) every valid date written in any of the
    four formats of [DATE_FORMATS] (as [strftime] writes it) comes out as
    the same DD/MM/YYYY text; (b) a non-empty input whose text, once
    stripped of surrounding whitespace, is refused by all four formats
    raises [ValueError("Invalid date: ...")]; (c) [None] and the empty
    string give today's date.  The input is stripped before it is parsed,
    so a string that none of the formats parses as it stands, but does
    once its surrounding whitespace is removed, is accepted. *)
Theorem to_site_date_formats :
  (forall today dt fmt, valid_date dt = true -> In fmt DATE_FORMATS ->
     to_site_date today (Some (strftime fmt dt)) = Ok (strftime FMT_DMY_SLASH dt)) /\
  (forall today s, s <> "" ->
     (forall fmt, In fmt DATE_FORMATS -> exists e, strptime fmt (strip s) = Err e) ->
     to_site_date today (Some s) = Err (ValueError ("Invalid date: " ++ strip s))) /\
  (forall today,
     to_site_date today None = Ok (strftime FMT_DMY_SLASH today) /\
     to_site_date today (Some "") = Ok (strftime FMT_DMY_SLASH today)).
Proof.
  split; [|split].
  - intros today dt fmt Hv Hf. destruct (valid_date_bounds dt Hv) as [Hy [Hm Hd]].
    unfold to_site_date.
    assert (Hne : String.eqb (strftime fmt dt) "" = false).
    { destruct Hf as [<-|[<-|[<-|[<-|[]]]]]; reflexivity. }
    rewrite Hne, strip_id.
    + exact (try_formats_render fmt dt Hf Hv).
    + apply strftime_no_space; try lia.
      destruct Hf as [<-|[<-|[<-|[<-|[]]]]]; reflexivity.
  - intros today s Hs Hall. unfold to_site_date.
    destruct (String.eqb_spec s "") as [|_]; [contradiction|].
    cbn [try_formats DATE_FORMATS].
    destruct (Hall FMT_YMD_DASH (or_introl eq_refl)) as [e1 ->].
    destruct (Hall FMT_DMY_SLASH (or_intror (or_introl eq_refl))) as [e2 ->].
    destruct (Hall FMT_DMY_DASH (or_intror (or_intror (or_introl eq_refl)))) as [e3 ->].
    destruct (Hall FMT_YMD_SLASH (or_intror (or_intror (or_intror (or_introl eq_refl)))))
      as [e4 ->].
    reflexivity.
  - intros today. split; reflexivity.
Qed.

(** C3 fails as stated: " 2025-01-01" (a leading blank) matches none of
    the four formats, yet [to_site_date] returns "01/01/2025" instead of
    raising, because it strips the input first. *)
Lemma to_site_date_leading_blank :
  (forall fmt, In fmt DATE_FORMATS -> exists e, strptime fmt " 2025-01-01" = Err e) /\
  to_site_date today0 (Some " 2025-01-01") = Ok "01/01/2025".
Proof.
  split.
  - intros fmt Hf. destruct Hf as [<-|[<-|[<-|[<-|[]]]]]; eexists; reflexivity.
  - vm_compute. reflexivity.
Qed.

(** ** More of [fetch_announcements]: schedule, rows, pagination *)

Lemma str_of_Z_inj : forall a b, str_of_Z a = str_of_Z b -> a = b.
Proof.
  intros a b H. unfold str_of_Z in H.
  apply (f_equal NilEmpty.int_of_string) in H. rewrite !NilEmpty.isi in H.
  injection H as H.
  rewrite <- (DecimalZ.of_to a), <- (DecimalZ.of_to b), H. reflexivity.
Qed.

Lemma req_page_unique : forall x p1 p2, req_page x p1 -> req_page x p2 -> p1 = p2.
Proof.
  unfold req_page. intros x p1 p2 H1 H2. rewrite H1 in H2. injection H2 as H2.
  exact (str_of_Z_inj _ _ H2).
Qed.

Lemma in_firstn_in : forall {A} k (l : list A) x, In x (firstn k l) -> In x l.
Proof.
  intros A k l x H. rewrite <- (firstn_skipn k l). apply in_or_app. left. exact H.
Qed.

Lemma resp_at_some_lt : forall srv tr j pl, resp_at srv tr j = Some pl -> j < length tr.
Proof.
  intros srv tr j pl H. destruct (Nat.lt_ge_cases j (length tr)) as [Hl|Hg]; [exact Hl|].
  rewrite resp_at_none in H by exact Hg. discriminate.
Qed.

Lemma collect_rows_app : forall srv prev l1 l2 acc,
  collect_rows srv prev (app l1 l2) acc =
  (acc' <- collect_rows srv prev l1 acc ;; collect_rows srv (app prev l1) l2 acc').
Proof.
  intros srv prev l1. revert prev.
  induction l1 as [|[url params] l1 IH]; intros prev l2 acc.
  - cbn. rewrite app_nil_r. reflexivity.
  - cbn [app collect_rows].
    destruct (truthy (srv prev url params) && (0 <? length (_extract_rows (srv prev url params))))%bool.
    + destruct (mapM normalize_row (_extract_rows (srv prev url params))) as [nr|e]; cbn [bind].
      * rewrite IH, <- app_assoc. reflexivity.
      * reflexivity.
    + rewrite IH, <- app_assoc. reflexivity.
Qed.

Lemma for_params_sched : forall srv url ps acc g tr r tr',
  for_params srv url ps acc g tr = (r, tr') ->
  exists k, k <= length ps /\
    tr' = app tr (firstn k (map (fun y => (url, y)) ps)) /\
    (forall acc' g', r = PCont acc' g' -> k = length ps) /\
    collect_rows srv tr (firstn k (map (fun y => (url, y)) ps)) acc
      = match r with PStop o => o | PCont acc' _ => Ok acc' end /\
    (forall acc', r = PCont acc' true -> g = true \/
       exists i pl, length tr <= i /\ resp_at srv tr' i = Some pl /\
                    full_page_resp pl = true).
Proof.
  intros srv url ps. induction ps as [|params ps IH]; intros acc g tr r tr' H.
  - cbn in H. injection H as <- <-. exists 0. cbn. rewrite app_nil_r.
    split; [lia|]. split; [reflexivity|]. split; [intros; reflexivity|].
    split; [reflexivity|]. intros acc' Hc. injection Hc as _ Hg. left. exact Hg.
  - cbn [for_params] in H.
    set (payload := srv tr url params) in H.
    assert (Hcont : forall acc1 g1,
      for_params srv url ps acc1 g1 (app tr [(url, params)]) = (r, tr') ->
      collect_rows srv tr [(url, params)] acc = Ok acc1 ->
      (g1 = true -> g = true \/ full_page_resp payload = true) ->
      exists k, k <= length (params :: ps) /\
        tr' = app tr (firstn k (map (fun y => (url, y)) (params :: ps))) /\
        (forall acc' g', r = PCont acc' g' -> k = length (params :: ps)) /\
        collect_rows srv tr (firstn k (map (fun y => (url, y)) (params :: ps))) acc
          = match r with PStop o => o | PCont acc' _ => Ok acc' end /\
        (forall acc', r = PCont acc' true -> g = true \/
           exists i pl, length tr <= i /\ resp_at srv tr' i = Some pl /\
                        full_page_resp pl = true)).
    { intros acc1 g1 Hf Hc Hg.
      destruct (IH _ _ _ _ _ Hf) as [k [Hk [Htr [Hl [Hcol Hgk]]]]].
      exists (S k). split; [cbn; lia|]. split.
      { rewrite Htr, <- app_assoc. reflexivity. }
      split; [intros acc' g' Hr; cbn; rewrite (Hl acc' g' Hr); reflexivity|]. split.
      { cbn [map firstn].
        change ((url, params) :: firstn k (map (fun y => (url, y)) ps))
          with (app [(url, params)] (firstn k (map (fun y => (url, y)) ps))).
        rewrite collect_rows_app, Hc. exact Hcol. }
      intros acc' Hr. destruct (Hgk acc' Hr) as [Hg1|[i [pl [Hi [Hri Hfi]]]]].
      - destruct (Hg Hg1) as [Hg0|Hfull]; [left; exact Hg0|]. right.
        exists (length tr), payload. split; [lia|]. split; [|exact Hfull].
        rewrite Htr, resp_at_app by (rewrite length_app; cbn; lia).
        apply resp_at_last.
      - right. exists i, pl. split; [rewrite length_app in Hi; cbn in Hi; lia|].
        split; assumption. }
    destruct (truthy payload) eqn:Et; cbn [negb] in H.
    + destruct (_extract_rows payload) as [|r0 rs] eqn:Er.
      * apply (Hcont acc g H).
        -- cbn [collect_rows]. fold payload. rewrite Et, Er. reflexivity.
        -- intros Hg. left. exact Hg.
      * destruct (mapM normalize_row (r0 :: rs)) as [nr|e] eqn:En.
        -- destruct (length (r0 :: rs) <? 20) eqn:El.
           ++ injection H as <- <-. exists 1. split; [cbn; lia|].
              split; [reflexivity|]. split; [intros acc' g' Hr; discriminate|].
              split; [|intros acc' Hr; discriminate].
              cbn [map firstn collect_rows]. fold payload. rewrite Et, Er. cbn [andb length Nat.ltb Nat.leb].
              rewrite En. reflexivity.
           ++ apply (Hcont (app acc nr) true H).
              ** cbn [collect_rows]. fold payload. rewrite Et, Er. cbn [andb length Nat.ltb Nat.leb].
                 rewrite En. reflexivity.
              ** intros _. right. unfold full_page_resp. rewrite Et, Er.
                 apply Nat.ltb_ge in El. apply Nat.leb_le. exact El.
        -- injection H as <- <-. exists 1. split; [cbn; lia|].
           split; [reflexivity|]. split; [intros acc' g' Hr; discriminate|].
           split; [|intros acc' Hr; discriminate].
           cbn [map firstn collect_rows]. fold payload. rewrite Et, Er. cbn [andb length Nat.ltb Nat.leb].
           rewrite En. reflexivity.
    + apply (Hcont acc g H).
      * cbn [collect_rows]. fold payload. rewrite Et. reflexivity.
      * intros Hg. left. exact Hg.
Qed.

Lemma for_urls_sched : forall srv urls ps acc g tr r tr',
  for_urls srv urls ps acc g tr = (r, tr') ->
  exists k, k <= length (list_prod urls ps) /\
    tr' = app tr (firstn k (list_prod urls ps)) /\
    (forall acc' g', r = PCont acc' g' -> k = length (list_prod urls ps)) /\
    collect_rows srv tr (firstn k (list_prod urls ps)) acc
      = match r with PStop o => o | PCont acc' _ => Ok acc' end /\
    (forall acc', r = PCont acc' true -> g = true \/
       exists i pl, length tr <= i /\ resp_at srv tr' i = Some pl /\
                    full_page_resp pl = true).
Proof.
  intros srv urls ps. induction urls as [|url urls IH]; intros acc g tr r tr' H.
  - cbn in H. injection H as <- <-. exists 0. cbn. rewrite app_nil_r.
    split; [lia|]. split; [reflexivity|]. split; [intros; reflexivity|].
    split; [reflexivity|]. intros acc' Hc. injection Hc as _ Hg. left. exact Hg.
  - cbn [for_urls] in H. cbn [list_prod].
    set (M := map (fun y => (url, y)) ps).
    assert (HM : length M = length ps) by apply length_map.
    destruct (for_params srv url ps acc g tr) as [r1 tr1] eqn:E.
    destruct (for_params_sched _ _ _ _ _ _ _ _ E) as [k1 [Hk1 [Htr1 [Hl1 [Hc1 Hg1]]]]].
    fold M in Htr1, Hc1.
    destruct r1 as [o1|acc1 g1].
    + injection H as <- <-. exists k1.
      assert (Hf : firstn k1 (app M (list_prod urls ps)) = firstn k1 M).
      { rewrite firstn_app. replace (k1 - length M) with 0 by lia.
        rewrite firstn_O, app_nil_r. reflexivity. }
      rewrite Hf, length_app. split; [lia|]. split; [exact Htr1|].
      split; [intros acc' g' Hr; discriminate|]. split; [exact Hc1|].
      intros acc' Hr; discriminate.
    + rewrite (Hl1 _ _ eq_refl), <- HM, firstn_all in Htr1, Hc1. subst tr1.
      destruct (IH _ _ _ _ _ H) as [k2 [Hk2 [Htr2 [Hl2 [Hc2 Hg2]]]]].
      exists (length M + k2). rewrite firstn_app_2, length_app.
      split; [lia|]. split; [rewrite Htr2, app_assoc; reflexivity|].
      split; [intros acc' g' Hr; rewrite (Hl2 _ _ Hr); reflexivity|].
      split; [rewrite collect_rows_app, Hc1; exact Hc2|].
      intros acc' Hr. destruct (Hg2 acc' Hr) as [Hg|[i [pl [Hi [Hri Hfi]]]]].
      * subst g1. destruct (Hg1 acc1 eq_refl) as [Hg|[i [pl [Hi [Hri Hfi]]]]];
          [left; exact Hg|right].
        exists i, pl. split; [exact Hi|]. split; [|exact Hfi].
        rewrite Htr2, resp_at_app by exact (resp_at_some_lt _ _ _ _ Hri). exact Hri.
      * right. exists i, pl. split; [rewrite length_app in Hi; lia|]. split; assumption.
Qed.

Lemma pages_sched : forall srv a f t fuel page acc tr o tr',
  pages srv a f t fuel page acc tr = (o, tr') ->
  exists k, tr' = app tr (firstn k (schedule a f t page fuel)) /\
    collect_rows srv tr (firstn k (schedule a f t page fuel)) acc = o.
Proof.
  intros srv a f t fuel. induction fuel as [|fuel IH]; intros page acc tr o tr' H.
  - cbn in H. injection H as <- <-. exists 0. cbn. rewrite app_nil_r.
    split; reflexivity.
  - cbn [pages] in H. cbn [schedule].
    destruct (page <=? fa_max_pages a)%Z eqn:Hp.
    2:{ injection H as <- <-. exists 0. cbn. rewrite app_nil_r. split; reflexivity. }
    set (ps := _param_variants (fa_segment a) (fa_submission_type a) f t page
                 (fa_search a) (fa_category a) (fa_subcategory a)) in H |- *.
    set (L := list_prod ENDPOINTS ps).
    destruct (for_urls srv ENDPOINTS ps acc false tr) as [r1 tr1] eqn:E.
    destruct (for_urls_sched _ _ _ _ _ _ _ _ E) as [k1 [Hk1 [Htr1 [Hl1 [Hc1 _]]]]].
    fold L in Hk1, Htr1, Hl1, Hc1.
    destruct r1 as [o1|acc1 g1].
    + injection H as <- <-. exists k1.
      rewrite firstn_app. replace (k1 - length L) with 0 by lia.
      rewrite firstn_O, app_nil_r. split; [exact Htr1|exact Hc1].
    + rewrite (Hl1 _ _ eq_refl), firstn_all in Htr1, Hc1. subst tr1.
      destruct g1; cbn [negb] in H.
      * destruct (IH _ _ _ _ _ H) as [k2 [Htr2 Hc2]].
        exists (length L + k2). rewrite firstn_app_2.
        split; [rewrite Htr2, app_assoc; reflexivity|].
        rewrite collect_rows_app, Hc1. exact Hc2.
      * injection H as <- <-. exists (length L).
        rewrite firstn_app, firstn_all, Nat.sub_diag, firstn_O, app_nil_r.
        split; [reflexivity|exact Hc1].
Qed.

Lemma pages_next_full : forall srv a f t fuel page acc tr o tr',
  pages srv a f t fuel page acc tr = (o, tr') ->
  forall j x q, length tr <= j -> nth_error tr' j = Some x -> req_page x (q + 1) ->
  (page <= q)%Z ->
  exists i y pl, length tr <= i < j /\ nth_error tr' i = Some y /\ req_page y q /\
    resp_at srv tr' i = Some pl /\ full_page_resp pl = true.
Proof.
  intros srv a f t fuel. induction fuel as [|fuel IH];
    intros page acc tr o tr' H j x q Hj Hx Hq Hpq.
  - cbn in H. injection H as <- <-. rewrite (proj2 (nth_error_None tr j) Hj) in Hx.
    discriminate.
  - cbn [pages] in H.
    destruct (page <=? fa_max_pages a)%Z eqn:Hp.
    2:{ injection H as <- <-. rewrite (proj2 (nth_error_None tr j) Hj) in Hx.
        discriminate. }
    set (ps := _param_variants (fa_segment a) (fa_submission_type a) f t page
                 (fa_search a) (fa_category a) (fa_subcategory a)) in H.
    set (L := list_prod ENDPOINTS ps).
    destruct (for_urls srv ENDPOINTS ps acc false tr) as [r1 tr1] eqn:E.
    destruct (for_urls_sched _ _ _ _ _ _ _ _ E) as [k1 [Hk1 [Htr1 [Hl1 [_ Hg1]]]]].
    fold L in Hk1, Htr1, Hl1.
    assert (Hnew : forall y, In y (firstn k1 L) -> req_page y page).
    { intros [u p] Hy. apply in_firstn_in, in_prod_iff in Hy as [_ Hy].
      exact (variants_pageno _ _ _ _ _ _ _ _ _ Hy). }
    assert (Hnone : forall j' x', length tr <= j' -> nth_error tr1 j' = Some x' ->
                      req_page x' (q + 1) -> False).
    { intros j' x' Hj' Hx' Hq'. rewrite Htr1 in Hx'.
      pose proof (req_page_unique _ _ _ (Hnew x' (nth_error_app_new _ _ _ _ Hj' Hx')) Hq').
      lia. }
    destruct r1 as [o1|acc1 g1].
    + injection H as <- <-. destruct (Hnone j x Hj Hx Hq).
    + destruct g1; cbn [negb] in H.
      2:{ injection H as <- <-. destruct (Hnone j x Hj Hx Hq). }
      destruct (pages_sched _ _ _ _ _ _ _ _ _ _ H) as [k2 [Htr2 _]].
      destruct (Nat.lt_ge_cases j (length tr1)) as [Hlt|Hge].
      { rewrite Htr2, nth_error_app1 in Hx by exact Hlt. destruct (Hnone j x Hj Hx Hq). }
      destruct (Z.eq_dec q page) as [->|Hne].
      * destruct (Hg1 acc1 eq_refl) as [Hf|[i [pl [Hi [Hri Hfi]]]]]; [discriminate|].
        pose proof (resp_at_some_lt _ _ _ _ Hri) as Hil.
        destruct (nth_error tr1 i) as [y|] eqn:Ey.
        2:{ apply nth_error_None in Ey. lia. }
        exists i, y, pl. split; [lia|]. split.
        { rewrite Htr2, nth_error_app1 by exact Hil. exact Ey. }
        split.
        { apply Hnew. rewrite Htr1 in Ey. exact (nth_error_app_new _ _ _ _ Hi Ey). }
        split; [|exact Hfi]. rewrite Htr2, resp_at_app by exact Hil. exact Hri.
      * destruct (IH _ _ _ _ _ H j x q Hge Hx Hq ltac:(lia)) as [i [y [pl [Hi Hrest]]]].
        exists i, y, pl. split; [|exact Hrest].
        rewrite Htr1, length_app in Hi. lia.
Qed.

Lemma in_schedule : forall a f t n page x,
  In x (schedule a f t page n) ->
  exists pg, (page <= pg < page + Z.of_nat n)%Z /\ In (fst x) ENDPOINTS /\
    In (snd x) (_param_variants (fa_segment a) (fa_submission_type a) f t pg
                  (fa_search a) (fa_category a) (fa_subcategory a)).
Proof.
  intros a f t n. induction n as [|n IH]; intros page [u p] H; [destruct H|].
  cbn [schedule] in H. apply in_app_or in H as [H|H].
  - apply in_prod_iff in H as [Hu Hp]. exists page. split; [lia|]. split; assumption.
  - destruct (IH _ _ H) as [pg [Hpg Hrest]]. exists pg. split; [lia|exact Hrest].
Qed.

Lemma length_schedule : forall a f t n page, length (schedule a f t page n) = 6 * n.
Proof.
  intros a f t n. induction n as [|n IH]; intros page; [reflexivity|].
  cbn [schedule]. rewrite length_app, IH. unfold _param_variants, ENDPOINTS.
  cbn [length list_prod map app]. lia.
Qed.

Lemma variants_fields : forall sg sub f t pg se c sc p,
  In p (_param_variants sg sub f t pg se c sc) ->
  sdict_get p "strCat" = Some (or_else c "-1") /\
  sdict_get p "strSubCat" = Some (or_else sc "") /\
  sdict_get p "strType" = Some (or_else sg "C") /\
  sdict_get p "strFromDate" = Some f /\
  sdict_get p "strToDate" = Some t /\
  sdict_get p "strSearch" = Some (or_else se "") /\
  sdict_get p "pageno" = Some (str_of_Z pg).
Proof.
  intros sg sub f t pg se c sc p H.
  destruct H as [<-|[<-|[<-|[]]]]; repeat split.
Qed.

(** The calls of a run whose dates parse, and its outcome. *)
Lemma fetch_sched : forall today srv a o tr f t,
  fetch_announcements today srv a = (o, tr) ->
  to_site_date today (Some (fa_from_date a)) = Ok f ->
  to_site_date today (Some (fa_to_date a)) = Ok t ->
  exists k, tr = firstn k (schedule a f t 1 (Z.to_nat (fa_max_pages a))) /\
    collect_rows srv [] tr [] = o.
Proof.
  intros today srv a o tr f t H Hf Ht. unfold fetch_announcements in H.
  rewrite Hf, Ht in H. destruct (pages_sched _ _ _ _ _ _ _ _ _ _ H) as [k [-> Hc]].
  exists k. split; [reflexivity|exact Hc].
Qed.

(** X1: every call [fetch_announcements] makes goes to one of the two
    endpoints, with the dates as [to_site_date] renders them, the category,
    sub-category, segment and search (or their defaults) of the arguments,
    and a page number between 1 and [max_pages]. *)
Theorem fetch_request_fields : forall today srv a o tr f t x,
  fetch_announcements today srv a = (o, tr) ->
  to_site_date today (Some (fa_from_date a)) = Ok f ->
  to_site_date today (Some (fa_to_date a)) = Ok t ->
  In x tr ->
  In (fst x) ENDPOINTS /\
  sdict_get (snd x) "strFromDate" = Some f /\
  sdict_get (snd x) "strToDate" = Some t /\
  sdict_get (snd x) "strCat" = Some (or_else (fa_category a) "-1") /\
  sdict_get (snd x) "strSubCat" = Some (or_else (fa_subcategory a) "") /\
  sdict_get (snd x) "strType" = Some (or_else (fa_segment a) "C") /\
  sdict_get (snd x) "strSearch" = Some (or_else (fa_search a) "") /\
  exists pg, (1 <= pg <= fa_max_pages a)%Z /\
    sdict_get (snd x) "pageno" = Some (str_of_Z pg).
Proof.
  intros today srv a o tr f t x H Hf Ht Hx.
  destruct (fetch_sched _ _ _ _ _ _ _ H Hf Ht) as [k [-> _]].
  apply in_firstn_in, in_schedule in Hx as [pg [Hpg [Hu Hp]]].
  destruct (variants_fields _ _ _ _ _ _ _ _ _ Hp) as [H1 [H2 [H3 [H4 [H5 [H6 H7]]]]]].
  repeat (split; [assumption|]). exists pg. split; [lia|exact H7].
Qed.

Lemma fetch_request_fields_witness :
  let r := fetch_announcements today0 srv_full (args_pages 2) in
  let x := nth 7 (snd r) ("", []) in
  In x (snd r) /\
  In (fst x) ENDPOINTS /\
  sdict_get (snd x) "strFromDate" = Some "01/01/2025" /\
  sdict_get (snd x) "strToDate" = Some "07/01/2025" /\
  sdict_get (snd x) "strCat" = Some (or_else (fa_category (args_pages 2)) "-1") /\
  sdict_get (snd x) "strSubCat" = Some (or_else (fa_subcategory (args_pages 2)) "") /\
  sdict_get (snd x) "strType" = Some (or_else (fa_segment (args_pages 2)) "C") /\
  sdict_get (snd x) "strSearch" = Some (or_else (fa_search (args_pages 2)) "") /\
  exists pg, (1 <= pg <= fa_max_pages (args_pages 2))%Z /\
    sdict_get (snd x) "pageno" = Some (str_of_Z pg).
Proof.
  intros r x.
  assert (H1 : fetch_announcements today0 srv_full (args_pages 2) = (fst r, snd r))
    by (unfold r; destruct (fetch_announcements today0 srv_full (args_pages 2)); reflexivity).
  assert (Hf : to_site_date today0 (Some (fa_from_date (args_pages 2))) = Ok "01/01/2025")
    by (vm_compute; reflexivity).
  assert (Ht : to_site_date today0 (Some (fa_to_date (args_pages 2))) = Ok "07/01/2025")
    by (vm_compute; reflexivity).
  assert (Hin : In x (snd r)) by (apply nth_In; vm_compute; lia).
  split; [exact Hin|].
  exact (fetch_request_fields today0 srv_full (args_pages 2) (fst r) (snd r)
           "01/01/2025" "07/01/2025" x H1 Hf Ht Hin).
Defined.

(** X2: the calls of a run are a prefix of the full schedule: pages 1, 2,
    ... [max_pages] in order, and within a page the first endpoint with
    the three variants, then the second endpoint with the three variants. *)
Theorem fetch_trace_schedule : forall today srv a o tr f t,
  fetch_announcements today srv a = (o, tr) ->
  to_site_date today (Some (fa_from_date a)) = Ok f ->
  to_site_date today (Some (fa_to_date a)) = Ok t ->
  exists k, tr = firstn k (schedule a f t 1 (Z.to_nat (fa_max_pages a))).
Proof.
  intros today srv a o tr f t H Hf Ht.
  destruct (fetch_sched _ _ _ _ _ _ _ H Hf Ht) as [k [Htr _]]. exists k. exact Htr.
Qed.

Lemma fetch_trace_schedule_witness :
  let r := fetch_announcements today0 srv_short (args_pages 3) in
  exists k, snd r = firstn k (schedule (args_pages 3) "01/01/2025" "07/01/2025" 1
                                 (Z.to_nat (fa_max_pages (args_pages 3)))).
Proof.
  intros r.
  assert (H1 : fetch_announcements today0 srv_short (args_pages 3) = (fst r, snd r))
    by (unfold r; destruct (fetch_announcements today0 srv_short (args_pages 3)); reflexivity).
  assert (Hf : to_site_date today0 (Some (fa_from_date (args_pages 3))) = Ok "01/01/2025")
    by (vm_compute; reflexivity).
  assert (Ht : to_site_date today0 (Some (fa_to_date (args_pages 3))) = Ok "07/01/2025")
    by (vm_compute; reflexivity).
  exact (fetch_trace_schedule today0 srv_short (args_pages 3) (fst r) (snd r)
           "01/01/2025" "07/01/2025" H1 Hf Ht).
Defined.

(** X3: a run makes at most [6 * max_pages] calls (two endpoints, three
    variants, per page), and none at all when [max_pages < 1]. *)
Theorem fetch_request_count : forall today srv a,
  length (snd (fetch_announcements today srv a)) <= 6 * Z.to_nat (fa_max_pages a).
Proof.
  intros today srv a. unfold fetch_announcements.
  destruct (to_site_date today (Some (fa_from_date a))) as [f|e]; [|cbn; lia].
  destruct (to_site_date today (Some (fa_to_date a))) as [t|e]; [|cbn; lia].
  destruct (pages srv a f t (Z.to_nat (fa_max_pages a)) 1 [] []) as [o tr] eqn:E.
  destruct (pages_sched _ _ _ _ _ _ _ _ _ _ E) as [k [-> _]]. cbn [snd app].
  rewrite length_firstn, length_schedule. lia.
Qed.

(** X4: the outcome of a run is the rows of its calls: the normalized rows
    of every truthy response with a non-empty row list, in call order, or
    the first [normalize_row] error; a date that does not parse fails the
    run before any call. *)
Theorem fetch_rows_collected : forall today srv a o tr,
  fetch_announcements today srv a = (o, tr) ->
  (forall f t, to_site_date today (Some (fa_from_date a)) = Ok f ->
     to_site_date today (Some (fa_to_date a)) = Ok t ->
     o = collect_rows srv [] tr []) /\
  (forall e, (to_site_date today (Some (fa_from_date a)) = Err e \/
              exists f, to_site_date today (Some (fa_from_date a)) = Ok f /\
                        to_site_date today (Some (fa_to_date a)) = Err e) ->
     o = Err e /\ tr = []).
Proof.
  intros today srv a o tr H. split.
  - intros f t Hf Ht. destruct (fetch_sched _ _ _ _ _ _ _ H Hf Ht) as [k [_ Hc]].
    symmetry. exact Hc.
  - intros e [He|[f [Hf He]]]; unfold fetch_announcements in H.
    + rewrite He in H. injection H as <- <-. split; reflexivity.
    + rewrite Hf, He in H. injection H as <- <-. split; reflexivity.
Qed.

Lemma fetch_rows_collected_witness :
  let r := fetch_announcements today0 srv_short (args_pages 3) in
  (forall f t, to_site_date today0 (Some (fa_from_date (args_pages 3))) = Ok f ->
     to_site_date today0 (Some (fa_to_date (args_pages 3))) = Ok t ->
     fst r = collect_rows srv_short [] (snd r) []) /\
  (forall e, (to_site_date today0 (Some (fa_from_date (args_pages 3))) = Err e \/
              exists f, to_site_date today0 (Some (fa_from_date (args_pages 3))) = Ok f /\
                        to_site_date today0 (Some (fa_to_date (args_pages 3))) = Err e) ->
     fst r = Err e /\ snd r = []).
Proof.
  intros r.
  assert (H1 : fetch_announcements today0 srv_short (args_pages 3) = (fst r, snd r))
    by (unfold r; destruct (fetch_announcements today0 srv_short (args_pages 3)); reflexivity).
  exact (fetch_rows_collected today0 srv_short (args_pages 3) (fst r) (snd r) H1).
Defined.

(** X5: a call for page [q + 1] is made only after some earlier call for
    page [q] received a full page (a truthy response with at least 20
    rows). *)
Theorem fetch_next_page_after_full : forall today srv a o tr j x q,
  fetch_announcements today srv a = (o, tr) ->
  nth_error tr j = Some x -> req_page x (q + 1) -> (1 <= q)%Z ->
  exists i y pl, i < j /\ nth_error tr i = Some y /\ req_page y q /\
    resp_at srv tr i = Some pl /\ full_page_resp pl = true.
Proof.
  intros today srv a o tr j x q H Hx Hq Hq1. unfold fetch_announcements in H.
  destruct (to_site_date today (Some (fa_from_date a))) as [f|e].
  2:{ injection H as _ <-. destruct j; discriminate. }
  destruct (to_site_date today (Some (fa_to_date a))) as [t|e].
  2:{ injection H as _ <-. destruct j; discriminate. }
  destruct (pages_next_full _ _ _ _ _ _ _ _ _ _ H j x q (Nat.le_0_l j) Hx Hq Hq1)
    as [i [y [pl [Hi Hrest]]]].
  exists i, y, pl. split; [lia|exact Hrest].
Qed.

Lemma fetch_next_page_after_full_witness :
  let tr := snd (fetch_announcements today0 srv_full (args_pages 2)) in
  let x := nth 6 tr ("", []) in
  nth_error tr 6 = Some x /\ req_page x (1 + 1) /\
  exists i y pl, i < 6 /\ nth_error tr i = Some y /\ req_page y 1 /\
    resp_at srv_full tr i = Some pl /\ full_page_resp pl = true.
Proof.
  intros tr x.
  assert (H1 : fetch_announcements today0 srv_full (args_pages 2)
               = (fst (fetch_announcements today0 srv_full (args_pages 2)), tr))
    by (unfold tr; destruct (fetch_announcements today0 srv_full (args_pages 2)); reflexivity).
  assert (Hx : nth_error tr 6 = Some x) by (vm_compute; reflexivity).
  assert (Hq : req_page x (1 + 1)) by (vm_compute; reflexivity).
  split; [exact Hx|]. split; [exact Hq|].
  exact (fetch_next_page_after_full today0 srv_full (args_pages 2) _ tr 6 x 1
           H1 Hx Hq ltac:(lia)).
Defined.

(** ** [datetime] arithmetic *)

Lemma valid_date_iff : forall d, valid_date d = true <->
  (1 <= year d /\ year d <= 9999) /\ (1 <= month d /\ month d <= 12) /\
  (1 <= day d /\ day d <= days_in_month (year d) (month d)).
Proof.
  intros d. unfold valid_date. rewrite !andb_true_iff, !Nat.leb_le. tauto.
Qed.

Lemma days_in_month_ge : forall y m, 28 <= days_in_month y m.
Proof.
  intros y m. unfold days_in_month.
  do 12 (destruct m as [|m]; [cbn; try destruct (is_leap y); lia|]).
  cbn. lia.
Qed.

Lemma days_before_month_step : forall y m, 2 <= m <= 12 ->
  days_before_month y m = days_before_month y (m - 1) + days_in_month y (m - 1).
Proof.
  intros y m Hm.
  do 13 (destruct m as [|m];
    [try lia; unfold days_before_month, days_in_month; cbn; destruct (is_leap y); reflexivity|]).
  lia.
Qed.

Lemma days_before_year_step : forall y, 2 <= y ->
  days_before_year y = days_before_year (y - 1) + 365 + (if is_leap (y - 1) then 1 else 0).
Proof.
  intros y Hy. destruct y as [|[|z]]; [lia|lia|].
  replace (S (S z) - 1) with (S z) by lia. unfold days_before_year.
  replace (S (S z) - 1) with (S z) by lia. replace (S z - 1) with z by lia.
  unfold is_leap.
  pose proof (Nat.div_mod_eq z 4). pose proof (Nat.div_mod_eq (S z) 4).
  pose proof (Nat.div_mod_eq z 100). pose proof (Nat.div_mod_eq (S z) 100).
  pose proof (Nat.div_mod_eq z 400). pose proof (Nat.div_mod_eq (S z) 400).
  pose proof (Nat.mod_upper_bound z 4 ltac:(lia)).
  pose proof (Nat.mod_upper_bound (S z) 4 ltac:(lia)).
  pose proof (Nat.mod_upper_bound z 100 ltac:(lia)).
  pose proof (Nat.mod_upper_bound (S z) 100 ltac:(lia)).
  pose proof (Nat.mod_upper_bound z 400 ltac:(lia)).
  pose proof (Nat.mod_upper_bound (S z) 400 ltac:(lia)).
  destruct (Nat.eqb_spec (S z mod 4) 0); destruct (Nat.eqb_spec (S z mod 100) 0);
    destruct (Nat.eqb_spec (S z mod 400) 0); cbn [andb orb negb]; lia.
Qed.

Lemma prev_day_step : forall d, valid_date d = true ->
  match prev_day d with
  | Ok p => valid_date p = true /\ to_ordinal p + 1 = to_ordinal d
  | Err e => to_ordinal d = 1 /\ e = OtherException "OverflowError" "date value out of range"
  end.
Proof.
  intros [y m dd] Hv. apply valid_date_iff in Hv. cbn [year month day] in Hv.
  unfold prev_day. cbn [year month day].
  destruct (Nat.ltb_spec 1 dd) as [H1|H1].
  { split; [apply valid_date_iff; cbn [year month day]; lia|].
    unfold to_ordinal. cbn [year month day]. lia. }
  destruct (Nat.ltb_spec 1 m) as [H2|H2].
  { pose proof (days_in_month_ge y (m - 1)). split.
    - apply valid_date_iff. cbn [year month day]. lia.
    - unfold to_ordinal. cbn [year month day].
      rewrite (days_before_month_step y m) by lia. lia. }
  destruct (Nat.ltb_spec 1 y) as [H3|H3].
  { replace m with 1 in * by lia. replace dd with 1 in * by lia. split.
    - apply valid_date_iff. cbn [year month day]. split; [lia|].
      split; [lia|]. cbn. lia.
    - unfold to_ordinal. cbn [year month day].
      rewrite (days_before_year_step y) by lia.
      unfold days_before_month. cbn. destruct (is_leap (y - 1)); lia. }
  replace y with 1 by lia. replace m with 1 by lia. replace dd with 1 by lia.
  split; reflexivity.
Qed.

Lemma sub_days_spec : forall n d, valid_date d = true ->
  match sub_days n d with
  | Ok p => valid_date p = true /\ to_ordinal p + n = to_ordinal d
  | Err e => to_ordinal d <= n /\ e = OtherException "OverflowError" "date value out of range"
  end.
Proof.
  induction n as [|n IH]; intros d Hv.
  - cbn. split; [exact Hv|lia].
  - cbn [sub_days]. pose proof (prev_day_step d Hv) as Hp.
    destruct (prev_day d) as [p|e]; cbn [bind].
    + destruct Hp as [Hvp Hop]. specialize (IH p Hvp).
      destruct (sub_days n p) as [p'|e]; destruct IH as [IH1 IH2]; split; (assumption || lia).
    + destruct Hp as [Hp1 Hp2]. split; [lia|exact Hp2].
Qed.

(** X8: [d - timedelta(days=n)] on a valid date is CPython's
    [fromordinal(d.toordinal() - n)]: a valid date [n] ordinals earlier,
    or [OverflowError] when that would be before 0001-01-01. *)
Theorem date_sub_days : forall n d, valid_date d = true ->
  match sub_days n d with
  | Ok p => valid_date p = true /\ to_ordinal p + n = to_ordinal d
  | Err e => to_ordinal d <= n /\ e = OtherException "OverflowError" "date value out of range"
  end.
Proof. exact sub_days_spec. Qed.

Lemma date_sub_days_witness :
  valid_date (mkdate 2024 3 1) = true /\
  match sub_days 1 (mkdate 2024 3 1) with
  | Ok p => valid_date p = true /\ to_ordinal p + 1 = to_ordinal (mkdate 2024 3 1)
  | Err e => to_ordinal (mkdate 2024 3 1) <= 1 /\
             e = OtherException "OverflowError" "date value out of range"
  end.
Proof.
  assert (Hv : valid_date (mkdate 2024 3 1) = true) by (vm_compute; reflexivity).
  split; [exact Hv|exact (date_sub_days 1 (mkdate 2024 3 1) Hv)].
Defined.

(** ** [to_site_date] on its own output *)

Lemma strptime_ok_valid : forall fmt s d, strptime fmt s = Ok d -> valid_date d = true.
Proof.
  intros fmt s d H. unfold strptime in H.
  destruct (regex_match fmt s) as [[toks rest]|]; [|discriminate].
  destruct rest; [|discriminate].
  match type of H with (if ?b then _ else _) = _ => destruct b eqn:E end;
    [injection H as <-; exact E|discriminate].
Qed.

Lemma try_formats_ok : forall fmts s out, try_formats fmts s = Ok out ->
  exists d, valid_date d = true /\ out = strftime FMT_DMY_SLASH d.
Proof.
  induction fmts as [|f fs IH]; intros s out H; cbn [try_formats] in H; [discriminate|].
  destruct (strptime f s) as [d|e] eqn:E.
  - injection H as <-. exists d. split; [exact (strptime_ok_valid _ _ _ E)|reflexivity].
  - exact (IH _ _ H).
Qed.

Lemma to_site_date_render : forall today dt fmt, valid_date dt = true -> In fmt DATE_FORMATS ->
  to_site_date today (Some (strftime fmt dt)) = Ok (strftime FMT_DMY_SLASH dt).
Proof.
  intros today dt fmt Hv Hf. destruct (valid_date_bounds dt Hv) as [Hy [Hm Hd]].
  unfold to_site_date.
  assert (Hne : String.eqb (strftime fmt dt) "" = false).
  { destruct Hf as [<-|[<-|[<-|[<-|[]]]]]; reflexivity. }
  rewrite Hne, strip_id.
  - exact (try_formats_render fmt dt Hf Hv).
  - apply strftime_no_space; try lia.
    destruct Hf as [<-|[<-|[<-|[<-|[]]]]]; reflexivity.
Qed.

Lemma to_site_date_ok : forall today s out, valid_date today = true ->
  to_site_date today s = Ok out ->
  exists d, valid_date d = true /\ out = strftime FMT_DMY_SLASH d.
Proof.
  intros today s out Hv H. unfold to_site_date in H.
  destruct s as [x|]; [|injection H as <-; exists today; split; [exact Hv|reflexivity]].
  destruct (String.eqb x "").
  - injection H as <-. exists today. split; [exact Hv|reflexivity].
  - exact (try_formats_ok _ _ _ H).
Qed.

(** X7: whatever [to_site_date] accepts it returns as the DD/MM/YYYY text of
    a valid date, and that text is a fixed point: given back to
    [to_site_date] it comes out unchanged. *)
Theorem to_site_date_canonical : forall today s out, valid_date today = true ->
  to_site_date today s = Ok out ->
  (exists d, valid_date d = true /\ out = strftime FMT_DMY_SLASH d) /\
  to_site_date today (Some out) = Ok out.
Proof.
  intros today s out Hv H.
  destruct (to_site_date_ok _ _ _ Hv H) as [d [Hd ->]].
  split; [exists d; split; [exact Hd|reflexivity]|].
  apply to_site_date_render; [exact Hd|]. right. left. reflexivity.
Qed.

Lemma to_site_date_canonical_witness :
  valid_date today0 = true /\ to_site_date today0 (Some " 2025-1-5") = Ok "05/01/2025" /\
  (exists d, valid_date d = true /\ "05/01/2025" = strftime FMT_DMY_SLASH d) /\
  to_site_date today0 (Some "05/01/2025") = Ok "05/01/2025".
Proof.
  assert (Hv : valid_date today0 = true) by (vm_compute; reflexivity).
  assert (Hs : to_site_date today0 (Some " 2025-1-5") = Ok "05/01/2025")
    by (vm_compute; reflexivity).
  split; [exact Hv|]. split; [exact Hs|].
  exact (to_site_date_canonical today0 (Some " 2025-1-5") "05/01/2025" Hv Hs).
Defined.

(** ** api/bse.py: [today_only] *)

Lemma in_dmy_slash : In FMT_DMY_SLASH DATE_FORMATS.
Proof. right. left. reflexivity. Qed.

(** X9: when [today_only] answers, its rows come from the first call (today
    to today, [max_pages]) if that returned rows, and otherwise from the
    second call (the day before to today, [max_pages + 2]); the answer
    carries today's date, [count] is the number of de-duplicated rows,
    [rows] is at most the first 200 of them, and [diag] is present exactly
    when asked for. *)
Theorem today_only_ok : forall today fetcher q o,
  valid_date today = true ->
  today_only today fetcher q = Ok (JObj o) ->
  exists rows out,
    ((fetcher (today_call q (strftime FMT_DMY_SLASH today) (strftime FMT_DMY_SLASH today)
                 (tq_max_pages q)) = Ok rows /\ rows <> []) \/
     (fetcher (today_call q (strftime FMT_DMY_SLASH today) (strftime FMT_DMY_SLASH today)
                 (tq_max_pages q)) = Ok [] /\
      exists p, valid_date p = true /\ to_ordinal p + 1 = to_ordinal today /\
        fetcher (today_call q (strftime FMT_DMY_SLASH p) (strftime FMT_DMY_SLASH today)
                   (tq_max_pages q + 2)) = Ok rows)) /\
    dedup_app rows = Ok out /\
    dict_get o "date" = Some (JStr (strftime FMT_DMY_SLASH today)) /\
    dict_get o "count" = Some (JNum (Z.of_nat (length out))) /\
    dict_get o "rows" = Some (JArr (map JObj (firstn 200 out))) /\
    length (firstn 200 out) <= 200 /\
    map fst o = (if tq_diag q then ["date"; "count"; "rows"; "diag"]
                 else ["date"; "count"; "rows"]).
Proof.
  intros today fetcher q o Hv H. unfold today_only in H.
  destruct (fetcher (today_call q (strftime FMT_DMY_SLASH today) (strftime FMT_DMY_SLASH today)
              (tq_max_pages q))) as [rows1|e] eqn:E1; cbn [bind] in H; [|discriminate].
  destruct rows1 as [|r rs].
  - rewrite (strptime_render FMT_DMY_SLASH today in_dmy_slash Hv) in H. cbn [bind] in H.
    pose proof (prev_day_step today Hv) as Hp.
    destruct (prev_day today) as [p|e]; cbn [bind] in H; [|discriminate].
    destruct Hp as [Hvp Hop].
    destruct (fetcher (today_call q (strftime FMT_DMY_SLASH p) (strftime FMT_DMY_SLASH today)
                (tq_max_pages q + 2))) as [rows2|e] eqn:E2; cbn [bind] in H; [|discriminate].
    destruct (dedup_app rows2) as [out|e] eqn:Ed; cbn [bind] in H; [|discriminate].
    exists rows2, out. split; [right; split; [reflexivity|exists p; auto]|].
    split; [exact Ed|].
    destruct (tq_diag q); injection H as <-; do 3 (split; [reflexivity|]);
      (split; [rewrite length_firstn; lia|reflexivity]).
  - cbn [bind] in H. destruct (dedup_app (r :: rs)) as [out|e] eqn:Ed; cbn [bind] in H; [|discriminate].
    exists (r :: rs), out. split; [left; split; [reflexivity|discriminate]|].
    split; [exact Ed|].
    destruct (tq_diag q); injection H as <-; do 3 (split; [reflexivity|]);
      (split; [rewrite length_firstn; lia|reflexivity]).
Qed.

Lemma today_only_ok_witness :
  let o := match today_only today0 fetch_fallback tq0 with Ok (JObj o) => o | _ => [] end in
  valid_date today0 = true /\ today_only today0 fetch_fallback tq0 = Ok (JObj o) /\
  exists rows out,
    ((fetch_fallback (today_call tq0 (strftime FMT_DMY_SLASH today0)
        (strftime FMT_DMY_SLASH today0) (tq_max_pages tq0)) = Ok rows /\ rows <> []) \/
     (fetch_fallback (today_call tq0 (strftime FMT_DMY_SLASH today0)
        (strftime FMT_DMY_SLASH today0) (tq_max_pages tq0)) = Ok [] /\
      exists p, valid_date p = true /\ to_ordinal p + 1 = to_ordinal today0 /\
        fetch_fallback (today_call tq0 (strftime FMT_DMY_SLASH p) (strftime FMT_DMY_SLASH today0)
                          (tq_max_pages tq0 + 2)) = Ok rows)) /\
    dedup_app rows = Ok out /\
    dict_get o "date" = Some (JStr (strftime FMT_DMY_SLASH today0)) /\
    dict_get o "count" = Some (JNum (Z.of_nat (length out))) /\
    dict_get o "rows" = Some (JArr (map JObj (firstn 200 out))) /\
    length (firstn 200 out) <= 200 /\
    map fst o = (if tq_diag tq0 then ["date"; "count"; "rows"; "diag"]
                 else ["date"; "count"; "rows"]).
Proof.
  intros o.
  assert (Hv : valid_date today0 = true) by (vm_compute; reflexivity).
  assert (H : today_only today0 fetch_fallback tq0 = Ok (JObj o)) by (vm_compute; reflexivity).
  split; [exact Hv|]. split; [exact H|].
  exact (today_only_ok today0 fetch_fallback tq0 o Hv H).
Defined.

(** X10: [today_only] catches nothing: an exception raised by the first
    call, or by the fallback call made after an empty first answer, is
    its outcome. *)
Theorem today_only_raises : forall today fetcher q e,
  (fetcher (today_call q (strftime FMT_DMY_SLASH today) (strftime FMT_DMY_SLASH today)
              (tq_max_pages q)) = Err e ->
   today_only today fetcher q = Err e) /\
  (valid_date today = true ->
   fetcher (today_call q (strftime FMT_DMY_SLASH today) (strftime FMT_DMY_SLASH today)
              (tq_max_pages q)) = Ok [] ->
   forall p, prev_day today = Ok p ->
   fetcher (today_call q (strftime FMT_DMY_SLASH p) (strftime FMT_DMY_SLASH today)
              (tq_max_pages q + 2)) = Err e ->
   today_only today fetcher q = Err e).
Proof.
  intros today fetcher q e. split.
  - intros H1. unfold today_only. rewrite H1. reflexivity.
  - intros Hv H1 p Hp H2. unfold today_only. rewrite H1. cbn [bind].
    rewrite (strptime_render FMT_DMY_SLASH today in_dmy_slash Hv). cbn [bind].
    rewrite Hp. cbn [bind]. rewrite H2. reflexivity.
Qed.

(** X11: when the first call does not come back empty (it raises, or
    returns rows), [today_only] makes no second call: its outcome is fixed
    by the first call's. *)
Theorem today_only_no_fallback : forall today f1 f2 q,
  f1 (today_call q (strftime FMT_DMY_SLASH today) (strftime FMT_DMY_SLASH today)
        (tq_max_pages q)) =
  f2 (today_call q (strftime FMT_DMY_SLASH today) (strftime FMT_DMY_SLASH today)
        (tq_max_pages q)) ->
  f1 (today_call q (strftime FMT_DMY_SLASH today) (strftime FMT_DMY_SLASH today)
        (tq_max_pages q)) <> Ok [] ->
  today_only today f1 q = today_only today f2 q.
Proof.
  intros today f1 f2 q Heq Hne. unfold today_only. rewrite <- Heq.
  destruct (f1 (today_call q (strftime FMT_DMY_SLASH today) (strftime FMT_DMY_SLASH today)
                  (tq_max_pages q))) as [[|r rs]|e]; [contradiction|reflexivity|reflexivity].
Qed.

Lemma today_only_no_fallback_witness :
  today_only today0 (fun _ => Ok [row_a1]) tq0 = today_only today0 (fun a =>
    if String.eqb (fa_from_date a) (fa_to_date a) then Ok [row_a1] else Ok [row_b]) tq0.
Proof.
  exact (today_only_no_fallback today0 (fun _ => Ok [row_a1]) (fun a =>
    if String.eqb (fa_from_date a) (fa_to_date a) then Ok [row_a1] else Ok [row_b]) tq0
    ltac:(vm_compute; reflexivity) ltac:(discriminate)).
Defined.

(** ** The command line *)

Lemma existsb_flag_in : forall argv flag,
  existsb (fun y => String.eqb y flag) argv = true <-> In flag argv.
Proof.
  intros argv flag. rewrite existsb_exists. split.
  - intros [y [Hy He]]. apply String.eqb_eq in He. subst y. exact Hy.
  - intros H. exists flag. split; [exact H|apply String.eqb_refl].
Qed.

Lemma list_index_first : forall pre post flag, ~ In flag pre ->
  list_index (app pre (flag :: post)) flag = Some (length pre).
Proof.
  induction pre as [|y pre IH]; intros post flag Hn; cbn [app list_index].
  - rewrite String.eqb_refl. reflexivity.
  - destruct (String.eqb_spec y flag) as [->|Hne].
    + exfalso. apply Hn. left. reflexivity.
    + rewrite IH by (intros Hi; apply Hn; right; exact Hi). reflexivity.
Qed.

Lemma arg_absent : forall argv flag default, ~ In flag argv -> _arg argv flag default = default.
Proof.
  intros argv flag default Hn. unfold _arg.
  destruct (existsb (fun y => String.eqb y flag) argv) eqn:E; [|reflexivity].
  apply existsb_flag_in in E. contradiction.
Qed.

(** X13: [_arg(flag, default)] is the default when the flag is absent;
    otherwise it is the word right after the flag's first occurrence,
    whatever that word is (another flag included), or the default when the
    flag is the last word. *)
Theorem arg_lookup : forall argv flag default,
  (~ In flag argv -> _arg argv flag default = default) /\
  (forall pre post, ~ In flag pre -> argv = app pre (flag :: post) ->
     _arg argv flag default = match post with v :: _ => v | [] => default end).
Proof.
  intros argv flag default. split; [exact (arg_absent argv flag default)|].
  intros pre post Hn ->. unfold _arg.
  assert (Hin : In flag (app pre (flag :: post))) by (apply in_or_app; right; left; reflexivity).
  apply existsb_flag_in in Hin. rewrite Hin, list_index_first by exact Hn.
  rewrite length_app.
  destruct post as [|v post]; cbn [length].
  - replace (length pre + 1 <? length pre + 1) with false by (symmetry; apply Nat.ltb_irrefl).
    reflexivity.
  - replace (length pre + 1 <? length pre + S (S (length post))) with true
      by (symmetry; apply Nat.ltb_lt; lia).
    rewrite app_nth2 by lia. replace (length pre + 1 - length pre) with 1 by lia.
    reflexivity.
Qed.

Lemma sub_days_6 : forall d, valid_date d = true -> 7 <= to_ordinal d ->
  exists p, sub_days 6 d = Ok p /\ valid_date p = true /\ to_ordinal p + 6 = to_ordinal d.
Proof.
  intros d Hv Ho. pose proof (sub_days_spec 6 d Hv) as H.
  destruct (sub_days 6 d) as [p|e].
  - exists p. split; [reflexivity|exact H].
  - destruct H as [H _]. lia.
Qed.

(** X14: run without [--from] and [--to], the command line fetches the
    last seven days: from six days before today to today, both written
    YYYY-MM-DD and turned by [to_site_date] into the DD/MM/YYYY texts of
    those days, with the default 30 pages. *)
Theorem cli_default_window : forall argv today,
  valid_date today = true -> 7 <= to_ordinal today ->
  ~ In "--from" argv -> ~ In "--to" argv ->
  exists a p, cli_fetch_args argv today = Ok a /\
    valid_date p = true /\ to_ordinal p + 6 = to_ordinal today /\
    fa_from_date a = strftime FMT_YMD_DASH p /\
    fa_to_date a = strftime FMT_YMD_DASH today /\
    fa_max_pages a = 30%Z /\
    to_site_date today (Some (fa_from_date a)) = Ok (strftime FMT_DMY_SLASH p) /\
    to_site_date today (Some (fa_to_date a)) = Ok (strftime FMT_DMY_SLASH today).
Proof.
  intros argv today Hv Ho Hf Ht.
  destruct (sub_days_6 today Hv Ho) as [p [Hs [Hvp Hop]]].
  unfold cli_fetch_args. rewrite Hs. cbn [bind].
  eexists. exists p. split; [reflexivity|]. cbn [fa_from_date fa_to_date fa_max_pages].
  rewrite (arg_absent _ _ _ Hf), (arg_absent _ _ _ Ht).
  split; [exact Hvp|]. split; [exact Hop|]. split; [reflexivity|]. split; [reflexivity|].
  split; [reflexivity|].
  split; apply to_site_date_render; try assumption; left; reflexivity.
Qed.

Lemma cli_default_window_witness :
  valid_date today0 = true /\ 7 <= to_ordinal today0 /\
  exists a p, cli_fetch_args [] today0 = Ok a /\
    valid_date p = true /\ to_ordinal p + 6 = to_ordinal today0 /\
    fa_from_date a = strftime FMT_YMD_DASH p /\
    fa_to_date a = strftime FMT_YMD_DASH today0 /\
    fa_max_pages a = 30%Z /\
    to_site_date today0 (Some (fa_from_date a)) = Ok (strftime FMT_DMY_SLASH p) /\
    to_site_date today0 (Some (fa_to_date a)) = Ok (strftime FMT_DMY_SLASH today0).
Proof.
  assert (Hv : valid_date today0 = true) by (vm_compute; reflexivity).
  assert (Ho : 7 <= to_ordinal today0) by (apply Nat.leb_le; vm_compute; reflexivity).
  split; [exact Hv|]. split; [exact Ho|].
  exact (cli_default_window [] today0 Hv Ho (fun H => H) (fun H => H)).
Defined.

(** ** [normalize_row] on rows that are not dicts *)

Lemma safe_get_no_key : forall d keys default,
  (forall k, py_contains d k = Ok false) -> _safe_get d keys default = Ok default.
Proof.
  intros d keys default H. induction keys as [|k ks IH]; [reflexivity|].
  cbn [_safe_get]. rewrite H. cbn [bind]. exact IH.
Qed.

Lemma list_no_string_contains : forall l k,
  forallb (fun v => match v with JStr _ => false | _ => true end) l = true ->
  py_contains (JArr l) k = Ok false.
Proof.
  intros l k H. cbn [py_contains]. f_equal.
  induction l as [|v l IH]; [reflexivity|].
  cbn [forallb] in H. apply andb_prop in H as [Hv Hl].
  cbn [existsb]. rewrite (IH Hl). destruct v; try discriminate; reflexivity.
Qed.

(** X6: [normalize_row] on a row that is [None], a bool or a number raises
    [TypeError] (the [in] test of [_safe_get] fails), and on a list with no
    string in it gives the nine fields, all [None]. *)
Theorem normalize_row_non_dict :
  normalize_row JNull = Err (TypeError "argument of type 'NoneType' is not iterable") /\
  (forall b, normalize_row (JBool b) = Err (TypeError "argument of type 'bool' is not iterable")) /\
  (forall z, normalize_row (JNum z) = Err (TypeError "argument of type 'int' is not iterable")) /\
  (forall l, forallb (fun v => match v with JStr _ => false | _ => true end) l = true ->
     normalize_row (JArr l) =
       Ok [("datetime", JNull); ("scrip_code", JNull); ("scrip_name", JNull);
           ("headline", JNull); ("category", JNull); ("subcategory", JNull);
           ("news_id", JNull); ("pdf_url", JNull); ("detail_url", JNull)]).
Proof.
  split; [reflexivity|]. split; [intros b; reflexivity|]. split; [intros z; reflexivity|].
  intros l Hl.
  assert (Hs : forall keys default, _safe_get (JArr l) keys default = Ok default).
  { intros keys default. apply safe_get_no_key. intros k.
    exact (list_no_string_contains l k Hl). }
  unfold normalize_row, _make_pdf_url, _make_detail_url. rewrite !Hs. reflexivity.
Qed.

(** ** The de-duplication loops, and [today_only] over [fetch_announcements] *)

(** X12: the de-duplication loop of the command line ([if not nid or nid in
    seen: continue]) and the one of the HTTP handlers ([if nid and nid not
    in seen]) keep the same rows and raise the same errors on every input. *)
Theorem dedup_cli_same_as_api : forall rows, dedup_cli rows = dedup_app rows.
Proof. exact dedup_cli_app. Qed.

(** X15: the dates [today_only] hands to [fetch_announcements] reach the
    upstream unchanged: every call of its first call (from = to = today)
    and of its fallback call (from = the given day) carries them, in
    DD/MM/YYYY, as [strFromDate] and [strToDate], with a page number
    between 1 and the pages asked for. *)
Theorem today_only_fetch_dates : forall now srv q today p pages x,
  valid_date today = true -> valid_date p = true ->
  In x (snd (fetch_announcements now srv
               (today_call q (strftime FMT_DMY_SLASH p) (strftime FMT_DMY_SLASH today) pages))) ->
  sdict_get (snd x) "strFromDate" = Some (strftime FMT_DMY_SLASH p) /\
  sdict_get (snd x) "strToDate" = Some (strftime FMT_DMY_SLASH today) /\
  exists pg, (1 <= pg <= pages)%Z /\ sdict_get (snd x) "pageno" = Some (str_of_Z pg).
Proof.
  intros now srv q today p pages x Hv Hp Hx.
  set (a := today_call q (strftime FMT_DMY_SLASH p) (strftime FMT_DMY_SLASH today) pages) in Hx.
  destruct (fetch_announcements now srv a) as [o tr] eqn:E. cbn [snd] in Hx.
  assert (Hf : to_site_date now (Some (fa_from_date a)) = Ok (strftime FMT_DMY_SLASH p))
    by exact (to_site_date_render now p FMT_DMY_SLASH Hp in_dmy_slash).
  assert (Ht : to_site_date now (Some (fa_to_date a)) = Ok (strftime FMT_DMY_SLASH today))
    by exact (to_site_date_render now today FMT_DMY_SLASH Hv in_dmy_slash).
  destruct (fetch_sched _ _ _ _ _ _ _ E Hf Ht) as [k [-> _]].
  apply in_firstn_in, in_schedule in Hx as [pg [Hpg [_ Hps]]].
  destruct (variants_fields _ _ _ _ _ _ _ _ _ Hps) as [_ [_ [_ [H4 [H5 [_ H7]]]]]].
  split; [exact H4|]. split; [exact H5|]. exists pg. split; [|exact H7].
  cbn [a fa_max_pages today_call] in Hpg. lia.
Qed.

Lemma today_only_fetch_dates_witness :
  let x := nth 0 (snd (fetch_announcements today0 srv_full
             (today_call tq0 (strftime FMT_DMY_SLASH today0) (strftime FMT_DMY_SLASH today0) 1)))
             ("", []) in
  sdict_get (snd x) "strFromDate" = Some (strftime FMT_DMY_SLASH today0) /\
  sdict_get (snd x) "strToDate" = Some (strftime FMT_DMY_SLASH today0) /\
  exists pg, (1 <= pg <= 1)%Z /\ sdict_get (snd x) "pageno" = Some (str_of_Z pg).
Proof.
  intros x.
  assert (Hv : valid_date today0 = true) by (vm_compute; reflexivity).
  assert (Hx : In x (snd (fetch_announcements today0 srv_full
             (today_call tq0 (strftime FMT_DMY_SLASH today0) (strftime FMT_DMY_SLASH today0) 1))))
    by (apply nth_In; vm_compute; lia).
  exact (today_only_fetch_dates today0 srv_full tq0 today0 today0 1 x Hv Hv Hx).
Defined.
